(** * ray/rpc/client_call.h: the asynchronous gRPC client-call runtime

    A shallow embedding of [ClientCallImpl] and [ClientCallManager].

    The header is stateful C++: a manager object, a free store of
    [ClientCall] objects addressed by the raw pointers used as completion
    tags, an event loop that receives posted handlers, and reference-counted
    [StatsHandle]s.  All of it lives in one [State] record that is threaded
    through a small state-and-abort monad [M].  [RAY_LOG(FATAL)], a failed
    [RAY_CHECK] and undefined behaviour (a dangling tag, an index outside
    [cqs_]) end a computation in [Aborted].

    What the header takes from its environment is an input of the operation
    that reads it: the value of [rand()], the clock, the handle returned by
    [RecordStart], the result of [CompletionQueue::AsyncNext].

    Threads are not modelled.  An operation of the header ([CreateCall],
    [SetClusterId], one iteration of the polling loop, one handler run by the
    event loop) is one atomic step, and an interleaving is a sequence of such
    steps.  The destructor blocks in [join]: its result tells whether it got
    to its end or stands in the [join] of a polling thread that has not
    returned yet. *)

From Stdlib Require Import ZArith Lia.
From stdpp Require Import base numbers option list gmap strings pretty.

(** ** What the header includes but does not define *)

(** [ClusterID] (ray/common/id.h), [kClusterIdKey], [grpc::Status],
    [ray::Status] and [GrpcStatusToRayStatus] (ray/common/grpc_util.h) are
    declared outside client_call.h, and [Request] / [Reply] are template
    parameters.  They are the fields of one class, so that every definition
    below is generic in them.  One [Reply] type is fixed for all calls of a
    manager. *)
Class Externals := {
  ClusterID : Type;
  ClusterID_eq_dec :: EqDecision ClusterID;
  (** [ClusterID::Nil()] *)
  ClusterID_Nil : ClusterID;
  (** [ClusterID::Hex()] *)
  ClusterID_Hex : ClusterID -> string;
  kClusterIdKey : string;
  grpc_Status : Type;
  (** a default-constructed [grpc::Status] *)
  grpc_Status_default : grpc_Status;
  ray_Status : Type;
  (** a default-constructed [ray::Status] *)
  ray_Status_default : ray_Status;
  GrpcStatusToRayStatus : grpc_Status -> ray_Status;
  Request : Type;
  Reply : Type;
  (** a default-constructed [Reply] message *)
  Reply_default : Reply
}.

(** Addresses of [ClientCall] objects; they double as completion tags. *)
Definition ptr := nat.

(** A [StatsHandle] object is known by its identity only. *)
Definition StatsHandle := nat.

(** [std::shared_ptr<StatsHandle>]; [None] is the null pointer. *)
Definition shared_ptr := option StatsHandle.

(** A user callback is opaque: it is known by a name, and calling it is
    recorded in the trace.  [ClientCallback] is the [std::function], which
    may be empty ([None], comparing equal to [nullptr]). *)
Definition Callback := nat.
Definition ClientCallback := option Callback.

(** [unsigned int] is 32 bits wide. *)
Definition UINT_MODULUS : Z := 2 ^ 32.
Definition to_unsigned (z : Z) : Z := (z mod UINT_MODULUS)%Z.

(** The completion queue that [rr_index_++ % num_threads_] selects for the
    [k]-th of a run of calls, when the counter stands at [start] before the
    first of them and there are [P] queues. *)
Definition nth_cq (start P : Z) (k : nat) : nat :=
  Z.to_nat (((start + Z.of_nat k) mod UINT_MODULUS) mod P).

(** [int64_t]: the number that the 64 bits of [z] in two's complement
    stand for. *)
Definition INT64_MIN : Z := - 2 ^ 63.
Definition INT64_MAX : Z := 2 ^ 63 - 1.
Definition to_int64 (z : Z) : Z := ((z + 2 ^ 63) mod 2 ^ 64 - 2 ^ 63)%Z.

(** [std::chrono::system_clock::now() + std::chrono::milliseconds(timeout_ms)],
    lines 78-79.  A time point of the system clock is a count of
    nanoseconds in an [int64_t].  The count of milliseconds, an [int64_t]
    too, is converted to nanoseconds and added to the time point, both in
    64-bit arithmetic: a product or a sum outside the range wraps
    around. *)
Definition NANOS_PER_MILLI : Z := 1000000.

Definition deadline_after (now timeout_ms : Z) : Z :=
  to_int64 (now + to_int64 (timeout_ms * NANOS_PER_MILLI)).

(** [grpc::ClientContext]: the deadline (a time point of the system clock)
    and the metadata attached to the outgoing request. *)
Record ClientContext := {
  deadline : option Z;
  metadata : list (string * string)
}.

Definition ClientContext_default : ClientContext :=
  {| deadline := None; metadata := [] |}.

Definition set_deadline (d : Z) (c : ClientContext) : ClientContext :=
  {| deadline := Some d; metadata := metadata c |}.

Definition AddMetadata (k v : string) (c : ClientContext) : ClientContext :=
  {| deadline := deadline c; metadata := metadata c ++ [(k, v)] |}.

(** [grpc::CompletionQueue::NextStatus], with what [AsyncNext] writes to
    its out-parameters [got_tag] and [ok] when it returns [GOT_EVENT].  The
    polling loop reads them in that case only. *)
Inductive NextStatus := SHUTDOWN | GOT_EVENT | TIMEOUT.

#[global] Instance NextStatus_eq_dec : EqDecision NextStatus.
Proof. solve_decision. Defined.

Record AsyncNextResult := {
  next_status : NextStatus;
  got_tag : ptr;
  ok : bool
}.

(** [grpc::CompletionQueue]: whether [Shutdown()] has been called on it. *)
Record CompletionQueue := { cq_shutdown : bool }.

Inductive LoopCtl := Break | Continue.

(** How a polling thread stands after the [AsyncNext] results given to it:
    it left the loop, or it is still in it. *)
Inductive PollerState := Exited | Polling.

(** How the destructor stands: it has returned, or it is in the [join] of
    a polling thread that has not returned from its function yet. *)
Inductive DestructorState := Destroyed | Joining (thread : Z).

Section ClientCall.
Context `{Ext : Externals}.

(** [ClusterID::IsNil()] *)
Definition IsNil (id : ClusterID) : bool := bool_decide (id = ClusterID_Nil).

Inductive Diagnostic :=
  (** [RAY_LOG(FATAL)] of [SetClusterId]: expected and stored identity *)
  | FatalClusterIdMismatch (expected got : ClusterID)
  (** a [RAY_CHECK] that does not hold *)
  | CheckFailed (condition : string)
  (** undefined behaviour or an uncaught exception *)
  | UndefinedBehavior (what : string).

(** ** [ClientCallImpl<Reply>] *)

Record ClientCallImpl := {
  reply_ : Reply;
  callback_ : ClientCallback;
  stats_handle_ : shared_ptr;
  (** the reader, known by the index of the completion queue it is bound to *)
  response_reader_ : option nat;
  status_ : grpc_Status;
  return_status_ : ray_Status;
  context_ : ClientContext
}.

Definition set_return_status_ (v : ray_Status) (c : ClientCallImpl) :=
  {| reply_ := reply_ c; callback_ := callback_ c;
     stats_handle_ := stats_handle_ c; response_reader_ := response_reader_ c;
     status_ := status_ c; return_status_ := v; context_ := context_ c |}.

Definition set_response_reader_ (v : option nat) (c : ClientCallImpl) :=
  {| reply_ := reply_ c; callback_ := callback_ c;
     stats_handle_ := stats_handle_ c; response_reader_ := v;
     status_ := status_ c; return_status_ := return_status_ c;
     context_ := context_ c |}.

(** What the transport writes through the addresses given to [Finish]. *)
Definition set_completion (st : grpc_Status) (r : Reply) (c : ClientCallImpl) :=
  {| reply_ := r; callback_ := callback_ c;
     stats_handle_ := stats_handle_ c; response_reader_ := response_reader_ c;
     status_ := st; return_status_ := return_status_ c;
     context_ := context_ c |}.

(** The constructor, lines 71-85.  [now] is [std::chrono::system_clock::now()],
    a count of nanoseconds; it is read only when a deadline is set.  The
    constructor moves [callback] out of the caller's [std::function]
    (line 75, through a [const_cast]); the caller's object is not part of
    the state. *)
Definition ClientCallImpl_new (callback : ClientCallback)
    (cluster_id : ClusterID) (stats_handle : shared_ptr) (timeout_ms : Z)
    (now : Z) : ClientCallImpl :=
  let context := ClientContext_default in
  let context :=
    if negb (timeout_ms =? -1)%Z
    then set_deadline (deadline_after now timeout_ms) context
    else context in
  let context :=
    if negb (IsNil cluster_id)
    then AddMetadata kClusterIdKey (ClusterID_Hex cluster_id) context
    else context in
  {| reply_ := Reply_default;
     callback_ := callback;
     stats_handle_ := stats_handle;
     response_reader_ := None;
     status_ := grpc_Status_default;
     return_status_ := ray_Status_default;
     context_ := context |}.

(** ** The event loop *)

(** Modelled from the spec: [instrumented_io_context] is defined in
    ray/common/asio/instrumented_io_context.h.  It has a [stopped()] query
    and [post(task, accountingHandle)], which schedules the task for a later
    run on the loop's thread.  The only task this header posts is the lambda
    of lines 282-286, which captures [call]; a queued handler is that pointer
    with the handle that was moved into [post]. *)
Record instrumented_io_context := {
  stopped_ : bool;
  handlers_ : list (ptr * shared_ptr)
}.

(** ** Trace of what an observer of the header sees *)

Inductive Event :=
  | EvRecordStart (call_name : string) (h : shared_ptr)
  | EvPrepareAsync (cq : nat) (tag : ptr) (request : Request)
      (context : ClientContext)
  | EvStartCall (tag : ptr)
  | EvFinish (tag : ptr)
  | EvSetThreadName (name : string)
  | EvAsyncNext (cq : Z) (deadline : Z)
  | EvMutexLock (tag : ptr)
  | EvMutexUnlock (tag : ptr)
  | EvWriteReturnStatus (tag : ptr) (status : ray_Status)
  | EvReadReturnStatus (tag : ptr) (status : ray_Status)
  | EvCallback (cb : Callback) (status : ray_Status) (reply : Reply)
  | EvPost (tag : ptr) (h : shared_ptr)
  | EvDelete (tag : ptr)
  | EvCqShutdown (cq : nat)
  | EvJoin (thread : Z)
  | EvThreadExit (index : Z).

(** ** The state: a [ClientCallManager] and the objects it points to *)

Record State := {
  cluster_id_ : ClusterID;
  main_service_ : instrumented_io_context;
  num_threads_ : Z;
  shutdown_ : bool;
  rr_index_ : Z;
  cqs_ : list CompletionQueue;
  (** the index each polling thread was started with *)
  polling_threads_ : list Z;
  call_timeout_ms_ : Z;
  (** the [ClientCall] objects that are allocated *)
  heap : gmap nat ClientCallImpl;
  next_ptr : ptr;
  (** [use_count()] of every [StatsHandle] *)
  use_count : gmap nat nat;
  trace : list Event
}.

Definition set_cluster_id_ (v : ClusterID) (s : State) : State :=
  {| cluster_id_ := v; main_service_ := main_service_ s;
     num_threads_ := num_threads_ s; shutdown_ := shutdown_ s;
     rr_index_ := rr_index_ s; cqs_ := cqs_ s;
     polling_threads_ := polling_threads_ s;
     call_timeout_ms_ := call_timeout_ms_ s; heap := heap s;
     next_ptr := next_ptr s; use_count := use_count s; trace := trace s |}.

Definition set_main_service_ (v : instrumented_io_context) (s : State)
    : State :=
  {| cluster_id_ := cluster_id_ s; main_service_ := v;
     num_threads_ := num_threads_ s; shutdown_ := shutdown_ s;
     rr_index_ := rr_index_ s; cqs_ := cqs_ s;
     polling_threads_ := polling_threads_ s;
     call_timeout_ms_ := call_timeout_ms_ s; heap := heap s;
     next_ptr := next_ptr s; use_count := use_count s; trace := trace s |}.

Definition set_shutdown_ (v : bool) (s : State) : State :=
  {| cluster_id_ := cluster_id_ s; main_service_ := main_service_ s;
     num_threads_ := num_threads_ s; shutdown_ := v;
     rr_index_ := rr_index_ s; cqs_ := cqs_ s;
     polling_threads_ := polling_threads_ s;
     call_timeout_ms_ := call_timeout_ms_ s; heap := heap s;
     next_ptr := next_ptr s; use_count := use_count s; trace := trace s |}.

Definition set_rr_index_ (v : Z) (s : State) : State :=
  {| cluster_id_ := cluster_id_ s; main_service_ := main_service_ s;
     num_threads_ := num_threads_ s; shutdown_ := shutdown_ s;
     rr_index_ := v; cqs_ := cqs_ s;
     polling_threads_ := polling_threads_ s;
     call_timeout_ms_ := call_timeout_ms_ s; heap := heap s;
     next_ptr := next_ptr s; use_count := use_count s; trace := trace s |}.

Definition set_cqs_ (v : list CompletionQueue) (s : State) : State :=
  {| cluster_id_ := cluster_id_ s; main_service_ := main_service_ s;
     num_threads_ := num_threads_ s; shutdown_ := shutdown_ s;
     rr_index_ := rr_index_ s; cqs_ := v;
     polling_threads_ := polling_threads_ s;
     call_timeout_ms_ := call_timeout_ms_ s; heap := heap s;
     next_ptr := next_ptr s; use_count := use_count s; trace := trace s |}.

Definition set_heap (v : gmap nat ClientCallImpl) (s : State) : State :=
  {| cluster_id_ := cluster_id_ s; main_service_ := main_service_ s;
     num_threads_ := num_threads_ s; shutdown_ := shutdown_ s;
     rr_index_ := rr_index_ s; cqs_ := cqs_ s;
     polling_threads_ := polling_threads_ s;
     call_timeout_ms_ := call_timeout_ms_ s; heap := v;
     next_ptr := next_ptr s; use_count := use_count s; trace := trace s |}.

Definition set_next_ptr (v : ptr) (s : State) : State :=
  {| cluster_id_ := cluster_id_ s; main_service_ := main_service_ s;
     num_threads_ := num_threads_ s; shutdown_ := shutdown_ s;
     rr_index_ := rr_index_ s; cqs_ := cqs_ s;
     polling_threads_ := polling_threads_ s;
     call_timeout_ms_ := call_timeout_ms_ s; heap := heap s;
     next_ptr := v; use_count := use_count s; trace := trace s |}.

Definition set_use_count (v : gmap nat nat) (s : State) : State :=
  {| cluster_id_ := cluster_id_ s; main_service_ := main_service_ s;
     num_threads_ := num_threads_ s; shutdown_ := shutdown_ s;
     rr_index_ := rr_index_ s; cqs_ := cqs_ s;
     polling_threads_ := polling_threads_ s;
     call_timeout_ms_ := call_timeout_ms_ s; heap := heap s;
     next_ptr := next_ptr s; use_count := v; trace := trace s |}.

Definition set_trace (v : list Event) (s : State) : State :=
  {| cluster_id_ := cluster_id_ s; main_service_ := main_service_ s;
     num_threads_ := num_threads_ s; shutdown_ := shutdown_ s;
     rr_index_ := rr_index_ s; cqs_ := cqs_ s;
     polling_threads_ := polling_threads_ s;
     call_timeout_ms_ := call_timeout_ms_ s; heap := heap s;
     next_ptr := next_ptr s; use_count := use_count s; trace := v |}.

(** ** The monad: state, and abort of the process *)

Inductive Outcome (A : Type) :=
  | Returned (a : A) (s : State)
  | Aborted (d : Diagnostic) (s : State).
Arguments Returned {A} a s.
Arguments Aborted {A} d s.

Definition M (A : Type) : Type := State -> Outcome A.

Definition ret {A} (a : A) : M A := fun s => Returned a s.

Definition bind {A B} (m : M A) (k : A -> M B) : M B :=
  fun s =>
    match m s with
    | Returned a s' => k a s'
    | Aborted d s' => Aborted d s'
    end.

Definition get : M State := fun s => Returned s s.
Definition modify (f : State -> State) : M unit := fun s => Returned tt (f s).
Definition abort {A} (d : Diagnostic) : M A := fun s => Aborted d s.
Definition emit (e : Event) : M unit :=
  modify (fun s => set_trace (trace s ++ [e]) s).

End ClientCall.

Arguments Returned {Ext A} a s.
Arguments Aborted {Ext A} d s.

Notation "'do' x <- m ; k" := (bind m (fun x => k))
  (at level 10, x name, m at level 100, k at level 200,
   format "'[v' 'do'  x  <-  m ; '/' k ']'").

Section Operations.
Context `{Ext : Externals}.

Fixpoint for_each {A} (l : list A) (body : A -> M unit) : M unit :=
  match l with
  | [] => ret tt
  | x :: l' => do _ <- body x; for_each l' body
  end.

(** [RAY_CHECK(condition)] *)
Definition RAY_CHECK (condition : bool) (text : string) : M unit :=
  if condition then ret tt else abort (CheckFailed text).

(** *** The free store *)

(** Any use of [*p]: undefined when no [ClientCall] is allocated at [p]. *)
Definition deref (p : ptr) : M ClientCallImpl :=
  fun s =>
    match heap s !! p with
    | Some c => Returned c s
    | None => Aborted (UndefinedBehavior "ClientCall is not allocated") s
    end.

Definition store (p : ptr) (c : ClientCallImpl) : M unit :=
  modify (fun s => set_heap (<[p := c]> (heap s)) s).

(** [new ClientCallImpl<Reply>(...)]; the null pointer is address 0 and is
    never allocated. *)
Definition new (c : ClientCallImpl) : M ptr :=
  fun s =>
    let p := next_ptr s in
    Returned p (set_next_ptr (S p) (set_heap (<[p := c]> (heap s)) s)).

(** *** [std::shared_ptr<StatsHandle>] *)

Definition incr (h : StatsHandle) (uc : gmap nat nat) : gmap nat nat :=
  <[h := S (default 0 (uc !! h))]> uc.

Definition decr (h : StatsHandle) (uc : gmap nat nat) : gmap nat nat :=
  <[h := pred (default 0 (uc !! h))]> uc.

(** One more owner of what [p] points to. *)
Definition shared_ptr_copy (p : shared_ptr) : M shared_ptr :=
  do _ <- modify (fun s =>
            match p with
            | Some h => set_use_count (incr h (use_count s)) s
            | None => s
            end);
  ret p.

(** The counts after one owner [p] is gone; a null pointer owns nothing. *)
Definition drop_owner (p : shared_ptr) (uc : gmap nat nat) : gmap nat nat :=
  match p with
  | Some h => decr h uc
  | None => uc
  end.

(** The destructor of a [shared_ptr]; a moved-from one is null. *)
Definition shared_ptr_release (p : shared_ptr) : M unit :=
  modify (fun s => set_use_count (drop_owner p (use_count s)) s).

(** [delete call]: the destructor of [ClientCallImpl] destroys the member
    [stats_handle_]. *)
Definition delete_call (call : ptr) : M unit :=
  do c <- deref call;
  do _ <- shared_ptr_release (stats_handle_ c);
  do _ <- modify (fun s => set_heap (delete call (heap s)) s);
  emit (EvDelete call).

(** *** Methods of [ClientCallImpl] *)

(** Lines 87-90. *)
Definition GetStatus (this : ptr) : M ray_Status :=
  do _ <- deref this;
  do _ <- emit (EvMutexLock this);
  do c <- deref this;
  do _ <- emit (EvReadReturnStatus this (return_status_ c));
  do _ <- emit (EvMutexUnlock this);
  ret (return_status_ c).

(** Lines 92-95. *)
Definition SetReturnStatus (this : ptr) : M unit :=
  do _ <- deref this;
  do _ <- emit (EvMutexLock this);
  do c <- deref this;
  let converted := GrpcStatusToRayStatus (status_ c) in
  do _ <- store this (set_return_status_ converted c);
  do _ <- emit (EvWriteReturnStatus this converted);
  emit (EvMutexUnlock this).

(** Lines 97-106.  What the user callback does is outside the header: the
    invocation is recorded with its arguments. *)
Definition OnReplyReceived (this : ptr) : M unit :=
  do _ <- deref this;
  do _ <- emit (EvMutexLock this);
  do c <- deref this;
  let status := return_status_ c in
  do _ <- emit (EvReadReturnStatus this status);
  do _ <- emit (EvMutexUnlock this);
  match callback_ c with
  | Some cb => emit (EvCallback cb status (reply_ c))
  | None => ret tt
  end.

(** Line 108. The returned [shared_ptr] is a copy. *)
Definition GetStatsHandle (this : ptr) : M shared_ptr :=
  do c <- deref this;
  shared_ptr_copy (stats_handle_ c).

(** *** Collaborators *)

(** Modelled from the spec: [EventTracker::RecordStart] is outside the
    header; the accounting service is [recordStart(callName) -> handle].
    [returned] is the pointer it returns, which owns the handle it points
    to. *)
Definition RecordStart (call_name : string) (returned : shared_ptr)
    : M shared_ptr :=
  do _ <- emit (EvRecordStart call_name returned);
  shared_ptr_copy returned.

(** Modelled from the spec: [instrumented_io_context::post] is outside the
    header; it schedules the task behind the ones already posted and keeps
    the handle that is moved into it. *)
Definition post (task : ptr) (stats_handle : shared_ptr) : M unit :=
  do _ <- emit (EvPost task stats_handle);
  modify (fun s =>
    set_main_service_
      {| stopped_ := stopped_ (main_service_ s);
         handlers_ := handlers_ (main_service_ s) ++ [(task, stats_handle)] |}
      s).

(** Modelled from the spec: the transport completes a pending call by
    writing the outcome and the reply through the addresses that [Finish]
    registered (line 235), before it signals the completion queue. *)
Definition transport_complete (tag : ptr) (st : grpc_Status) (r : Reply)
    : M unit :=
  do c <- deref tag;
  store tag (set_completion st r c).

(** *** [ClientCallManager] *)

Inductive Constructed :=
  | Built (s : State)
  | NotBuilt (d : Diagnostic).

(** One turn of the constructor's loop, lines 181-183. *)
Definition start_polling_thread (s : State) (i : Z) : State :=
  let s := set_cqs_ (cqs_ s ++ [{| cq_shutdown := false |}]) s in
  {| cluster_id_ := cluster_id_ s; main_service_ := main_service_ s;
     num_threads_ := num_threads_ s; shutdown_ := shutdown_ s;
     rr_index_ := rr_index_ s; cqs_ := cqs_ s;
     polling_threads_ := polling_threads_ s ++ [i];
     call_timeout_ms_ := call_timeout_ms_ s; heap := heap s;
     next_ptr := next_ptr s; use_count := use_count s; trace := trace s |}.

(** The constructor, lines 168-185.  [rand_value] is what [rand()] returns.
    [rand() % 0] is undefined, and [reserve] of a negative [int] (a huge
    [size_t]) throws.  The [cluster_id] argument is not used: the member is
    initialised to [ClusterID::Nil()] (line 172). *)
Definition ClientCallManager_new (main_service : instrumented_io_context)
    (cluster_id : ClusterID) (num_threads : Z) (call_timeout_ms : Z)
    (rand_value : Z) : Constructed :=
  if (num_threads =? 0)%Z then NotBuilt (UndefinedBehavior "rand() % 0")
  else if (num_threads <? 0)%Z
  then NotBuilt (UndefinedBehavior "std::length_error")
  else
    let s :=
      {| cluster_id_ := ClusterID_Nil;
         main_service_ := main_service;
         num_threads_ := num_threads;
         shutdown_ := false;
         rr_index_ := to_unsigned (Z.rem rand_value num_threads);
         cqs_ := [];
         polling_threads_ := [];
         call_timeout_ms_ := call_timeout_ms;
         heap := ∅; next_ptr := 1; use_count := ∅; trace := [] |} in
    Built (fold_left start_polling_thread (seqZ 0 num_threads) s).

(** [cqs_[i]] *)
Definition cqs_at (i : Z) : M CompletionQueue :=
  fun s =>
    match (if (i <? 0)%Z then None else cqs_ s !! Z.to_nat i) with
    | Some cq => Returned cq s
    | None => Aborted (UndefinedBehavior "index outside cqs_") s
    end.

(** [rr_index_++ % num_threads_]: the post-increment of the
    [std::atomic<unsigned int>] wraps around, and the [int] operand is
    converted to [unsigned int]. *)
Definition next_cq_index : M Z :=
  do s <- get;
  let i := rr_index_ s in
  do _ <- modify (set_rr_index_ (to_unsigned (i + 1)));
  let n := to_unsigned (num_threads_ s) in
  if (n =? 0)%Z then abort (UndefinedBehavior "modulo 0")
  else ret (i mod n)%Z.

(** [CreateCall], lines 214-236.  [returned] is the pointer that
    [RecordStart] returns and [now] the reading of the system clock. *)
Definition CreateCall (request : Request) (callback : ClientCallback)
    (call_name : string) (method_timeout_ms : Z)
    (returned : shared_ptr) (now : Z) : M unit :=
  do stats_handle <- RecordStart call_name returned;
  do s <- get;
  let method_timeout_ms :=
    if (method_timeout_ms =? -1)%Z then call_timeout_ms_ s
    else method_timeout_ms in
  do call <- new (ClientCallImpl_new callback (cluster_id_ s) stats_handle
                    method_timeout_ms now);
  do i <- next_cq_index;
  do _ <- cqs_at i;
  do c <- deref call;
  do _ <- store call (set_response_reader_ (Some (Z.to_nat i)) c);
  do _ <- emit (EvPrepareAsync (Z.to_nat i) call request (context_ c));
  do _ <- emit (EvStartCall call);
  emit (EvFinish call).

(** [SetClusterId], lines 238-244. *)
Definition SetClusterId (cluster_id : ClusterID) : M unit :=
  do s <- get;
  let old_id := cluster_id_ s in
  do _ <- modify (set_cluster_id_ ClusterID_Nil);
  if negb (IsNil old_id) && negb (bool_decide (old_id = cluster_id))
  then abort (FatalClusterIdMismatch cluster_id old_id)
  else ret tt.

(** [GetMainService], line 247. *)
Definition GetMainService : M instrumented_io_context :=
  do s <- get; ret (main_service_ s).

(** One turn of the [while (true)] loop, lines 262-291.  [now] is
    [gpr_now(GPR_CLOCK_REALTIME)] in milliseconds and [next] what
    [AsyncNext] returns for the deadline it is given. *)
Definition poll_iteration (index : Z) (now : Z) (next : AsyncNextResult)
    : M LoopCtl :=
  let deadline := (now + 250)%Z in
  do _ <- cqs_at index;
  do _ <- emit (EvAsyncNext index deadline);
  let status := next_status next in
  do s <- get;
  if bool_decide (status = SHUTDOWN) then ret Break
  else if bool_decide (status = TIMEOUT) && shutdown_ s then ret Break
  else if negb (bool_decide (status = TIMEOUT)) then
    let call := got_tag next in
    do _ <- SetReturnStatus call;
    do stats_handle <- GetStatsHandle call;
    do _ <- RAY_CHECK (bool_decide (stats_handle <> None))
                      "stats_handle != nullptr";
    do s <- get;
    if ok next && negb (stopped_ (main_service_ s)) && negb (shutdown_ s)
    then
      do _ <- post call stats_handle;
      ret Continue
    else
      do _ <- delete_call call;
      do _ <- shared_ptr_release stats_handle;
      ret Continue
  else ret Continue.

(** The loop, over the successive clock readings and [AsyncNext] results. *)
Fixpoint poll_loop (index : Z) (inputs : list (Z * AsyncNextResult))
    : M PollerState :=
  match inputs with
  | [] => ret Polling
  | (now, next) :: rest =>
      do ctl <- poll_iteration index now next;
      match ctl with
      | Break => ret Exited
      | Continue => poll_loop index rest
      end
  end.

(** The loop and, once it is left, the return of the thread from its
    function (line 293). *)
Definition poll_to_return (index : Z) (inputs : list (Z * AsyncNextResult))
    : M PollerState :=
  do r <- poll_loop index inputs;
  match r with
  | Exited => do _ <- emit (EvThreadExit index); ret Exited
  | Polling => ret Polling
  end.

(** [PollEventsFromCompletionQueue], lines 253-293. *)
Definition PollEventsFromCompletionQueue (index : Z)
    (inputs : list (Z * AsyncNextResult)) : M PollerState :=
  do _ <- emit (EvSetThreadName ("client.poll" +:+ pretty index));
  poll_to_return index inputs.

(** The handler posted at lines 281-287. *)
Definition posted_handler (call : ptr) : M unit :=
  do _ <- OnReplyReceived call;
  delete_call call.

(** Modelled from the spec: the event loop, outside the header, runs the
    posted handlers one at a time on its thread and then lets go of the
    handle that came with the handler.  A stopped loop runs nothing.  The
    result tells whether a handler ran. *)
Definition run_one : M bool :=
  do s <- get;
  if stopped_ (main_service_ s) then ret false
  else
    match handlers_ (main_service_ s) with
    | [] => ret false
    | (call, stats_handle) :: rest =>
        do _ <- modify (set_main_service_
                          {| stopped_ := false; handlers_ := rest |});
        do _ <- posted_handler call;
        do _ <- shared_ptr_release stats_handle;
        ret true
    end.

(** Whether the thread that was started with [index] has returned from
    [PollEventsFromCompletionQueue]. *)
Definition exited (tr : list Event) (index : Z) : bool :=
  existsb (fun e => match e with
                    | EvThreadExit i => (i =? index)%Z
                    | _ => false
                    end) tr.

Definition thread_finished (s : State) (index : Z) : bool :=
  exited (trace s) index.

(** The second loop of the destructor, lines 192-194.  [join] returns once
    the thread has returned from its function; as long as it has not, the
    destructor stands in that [join]. *)
Fixpoint join_all (threads : list Z) : M DestructorState :=
  match threads with
  | [] => ret Destroyed
  | t :: rest =>
      do s <- get;
      if thread_finished s t
      then do _ <- emit (EvJoin t); join_all rest
      else ret (Joining t)
  end.

(** The destructor, lines 187-195.  The result tells how far it gets in
    the state in which it runs: to its end, or into the [join] of a
    polling thread that is still in its loop, from where [join_all] of
    that thread and the later ones takes it on. *)
Definition ClientCallManager_delete : M DestructorState :=
  do _ <- modify (set_shutdown_ true);
  do s <- get;
  do _ <- for_each (seq 0 (length (cqs_ s))) (fun i =>
            do s <- get;
            do _ <- modify (set_cqs_ (<[i := {| cq_shutdown := true |}]>
                                        (cqs_ s)));
            emit (EvCqShutdown i));
  join_all (polling_threads_ s).

(** *** Interleavings

    What can happen to a manager once it is built: a call of its public
    interface, a completion written by the transport, one turn of the loop
    of a polling thread, one handler run by the event loop. *)
Inductive Step :=
  | StepCreateCall (request : Request) (callback : ClientCallback)
      (call_name : string) (method_timeout_ms : Z)
      (returned : shared_ptr) (now : Z)
  | StepSetClusterId (cluster_id : ClusterID)
  | StepTransportComplete (tag : ptr) (st : grpc_Status) (r : Reply)
  | StepPoll (index : Z) (now : Z) (next : AsyncNextResult)
  | StepRunOne.

Definition step (a : Step) : M unit :=
  match a with
  | StepCreateCall request callback call_name method_timeout_ms returned now =>
      CreateCall request callback call_name method_timeout_ms returned now
  | StepSetClusterId cluster_id => SetClusterId cluster_id
  | StepTransportComplete tag st r => transport_complete tag st r
  | StepPoll index now next => do _ <- poll_iteration index now next; ret tt
  | StepRunOne => do _ <- run_one; ret tt
  end.

Definition steps (l : list Step) : M unit := for_each l step.

(** Whether a step is a [CreateCall]. *)
Definition is_CreateCall (a : Step) : bool :=
  match a with
  | StepCreateCall _ _ _ _ _ _ => true
  | _ => false
  end.

(** A step in which [RecordStart] returns the null pointer. *)
Definition null_handle_step (a : Step) : bool :=
  match a with
  | StepCreateCall _ _ _ _ None _ => true
  | _ => false
  end.

(** *** Well-formed managers *)

Definition INT_MAX : Z := 2 ^ 31 - 1.

(** What the constructor establishes: a positive [int] number of threads,
    one completion queue each, and a counter in the range of
    [unsigned int]. *)
Definition manager_ok (s : State) : Prop :=
  (0 < num_threads_ s <= INT_MAX)%Z /\
  length (cqs_ s) = Z.to_nat (num_threads_ s) /\
  (0 <= rr_index_ s < UINT_MODULUS)%Z.

(** An index that [cqs_] has. *)
Definition cq_index_ok (s : State) (index : Z) : Prop :=
  (0 <= index)%Z /\ (Z.to_nat index < length (cqs_ s))%nat.

(** Every call that is allocated has a stats handle. *)
Definition handles_ok (s : State) : Prop :=
  forall tag c, heap s !! tag = Some c -> stats_handle_ c <> None.

(** Every call of [s'] is a call of [s], with the stats handle it has
    there. *)
Definition same_handles (s s' : State) : Prop :=
  forall tag c',
    heap s' !! tag = Some c' ->
    exists c, heap s !! tag = Some c /\ stats_handle_ c' = stats_handle_ c.

(** *** Observations on the trace *)

(** The completion queue of every call sent, in the order of sending. *)
Definition sent_to (tr : list Event) : list nat :=
  omap (fun e => match e with
                 | EvPrepareAsync cq _ _ _ => Some cq
                 | _ => None
                 end) tr.

(** The context of every request sent, in the order of sending. *)
Definition sent_contexts (tr : list Event) : list ClientContext :=
  omap (fun e => match e with
                 | EvPrepareAsync _ _ _ c => Some c
                 | _ => None
                 end) tr.

(** The user callbacks invoked, with their arguments. *)
Definition callbacks_invoked (tr : list Event)
    : list (Callback * ray_Status * Reply) :=
  omap (fun e => match e with
                 | EvCallback cb st r => Some (cb, st, r)
                 | _ => None
                 end) tr.

(** [ClientContext]: the value of a metadata key, if the key is present. *)
Definition header (k : string) (c : ClientContext) : option string :=
  (fun kv => snd (snd kv)) <$> list_find (fun kv => fst kv = k) (metadata c).

End Operations.

(** ** A concrete environment, for the examples

    Cluster identities are strings, the empty string standing for
    [ClusterID::Nil()]; a transport outcome is its gRPC status code, and the
    converted status keeps the code of a failure. *)

Inductive example_status := StatusOK | StatusRpcError (code : Z).

Definition example_externals : Externals :=
  {| ClusterID := string;
     ClusterID_Nil := "";
     ClusterID_Hex := fun id => id;
     kClusterIdKey := "ray_cluster_id";
     grpc_Status := Z;
     grpc_Status_default := 0%Z;
     ray_Status := example_status;
     ray_Status_default := StatusOK;
     GrpcStatusToRayStatus :=
       fun code => if (code =? 0)%Z then StatusOK else StatusRpcError code;
     Request := string;
     Reply := Z;
     Reply_default := 0%Z |}.

(** An event loop that runs and has nothing posted. *)
Definition idle_loop : instrumented_io_context :=
  {| stopped_ := false; handlers_ := [] |}.

(** The state in which a computation ends, aborted or not. *)
Definition final_state `{Ext : Externals} {A} (o : Outcome A) : State :=
  match o with
  | Returned _ s => s
  | Aborted _ s => s
  end.

Definition returns `{Ext : Externals} {A} (o : Outcome A) : bool :=
  match o with
  | Returned _ _ => true
  | Aborted _ _ => false
  end.

(** ** Predicates on computations *)

Section Predicates.
Context `{Ext : Externals}.

(** [keeps f m]: running [m] does not change the observation [f] of the
    state, also when [m] aborts. *)
Definition keeps {X A} (f : State -> X) (m : M A) : Prop :=
  forall s, f (final_state (m s)) = f s.

(** [m] allocates no call and gives no call another stats handle. *)
Definition no_new_handles {A} (m : M A) : Prop :=
  forall s, same_handles s (final_state (m s)).

End Predicates.

(** ** Example states *)

Section Examples.
#[local] Existing Instance example_externals.

(** The manager that the constructor builds for two polling threads and no
    default timeout when [rand()] returns 7. *)
Definition example_manager : State :=
  {| cluster_id_ := "";
     main_service_ := idle_loop;
     num_threads_ := 2;
     shutdown_ := false;
     rr_index_ := 1;
     cqs_ := [{| cq_shutdown := false |}; {| cq_shutdown := false |}];
     polling_threads_ := [0; 1]%Z;
     call_timeout_ms_ := -1;
     heap := ∅; next_ptr := 1; use_count := ∅; trace := [] |}.

(** The manager that the constructor builds for three polling threads
    when [rand()] returns 8. *)
Definition example_manager_3 : State :=
  {| cluster_id_ := "";
     main_service_ := idle_loop;
     num_threads_ := 3;
     shutdown_ := false;
     rr_index_ := 2;
     cqs_ := [{| cq_shutdown := false |}; {| cq_shutdown := false |};
              {| cq_shutdown := false |}];
     polling_threads_ := [0; 1; 2]%Z;
     call_timeout_ms_ := -1;
     heap := ∅; next_ptr := 1; use_count := ∅; trace := [] |}.

Definition GOT (tag : ptr) (ok0 : bool) : AsyncNextResult :=
  {| next_status := GOT_EVENT; got_tag := tag; ok := ok0 |}.

Definition TIMED_OUT : AsyncNextResult :=
  {| next_status := TIMEOUT; got_tag := 0; ok := false |}.

(** One call with callback 5 is created; the transport completes it with
    status code 4 and reply 42. *)
Definition example_completion : list Step :=
  [StepCreateCall "request" (Some 5) "Echo" (-1) (Some 10) 1000;
   StepTransportComplete 1 4%Z 42%Z].

Definition example_completed : State :=
  final_state (steps example_completion example_manager).

(** The call of [example_completed], at address 1. *)
Definition example_call : ClientCallImpl :=
  {| reply_ := 42%Z; callback_ := Some 5; stats_handle_ := Some 10;
     response_reader_ := Some 1; status_ := 4%Z; return_status_ := StatusOK;
     context_ := ClientContext_default |}.

(** One call without callback is created, completed by the transport and
    posted to the event loop by the polling thread of its queue. *)
Definition example_posted_null : State :=
  final_state
    (steps [StepCreateCall "request" None "Echo" (-1) (Some 10) 1000;
            StepTransportComplete 1 0%Z 42%Z;
            StepPoll 1 2000 (GOT 1 true)]
       example_manager).

(** The call of [example_posted_null], at address 1. *)
Definition example_null_call : ClientCallImpl :=
  {| reply_ := 42%Z; callback_ := None; stats_handle_ := Some 10;
     response_reader_ := Some 1; status_ := 0%Z; return_status_ := StatusOK;
     context_ := ClientContext_default |}.

(** The manager while its destructor, with [shutdown_] set and the queues
    shut down, waits for the polling threads. *)
Definition example_destroyed : State :=
  final_state (ClientCallManager_delete example_manager).

(** Scenario A of the specification, with two calls: both complete with
    success on their queues, the polling threads post them and the event
    loop runs the two handlers. *)
Definition scenario_A : M unit :=
  do _ <- CreateCall "first" (Some 1) "Echo" (-1) (Some 10) 1000;
  do _ <- CreateCall "second" (Some 2) "Echo" (-1) (Some 11) 1001;
  do _ <- transport_complete 2 0%Z 200%Z;
  do _ <- transport_complete 1 0%Z 100%Z;
  do _ <- poll_iteration 0 2000 (GOT 2 true);
  do _ <- poll_iteration 1 2000 (GOT 1 true);
  do _ <- run_one;
  do _ <- run_one;
  ret tt.

Definition SHUT_DOWN : AsyncNextResult :=
  {| next_status := SHUTDOWN; got_tag := 0; ok := false |}.

(** Scenario B of the specification: the two polling threads are started,
    a call is created, and the destructor runs before the transport
    completes the call.  The destructor gets into the [join] of thread 0.
    Queue 1 hands the pending tag out as not [ok] and reports its
    shutdown, queue 0 reports its shutdown, and the destructor goes
    on. *)
Definition scenario_B_start : M DestructorState :=
  do _ <- PollEventsFromCompletionQueue 0 [];
  do _ <- PollEventsFromCompletionQueue 1 [];
  do _ <- CreateCall "request" (Some 1) "Echo" (-1) (Some 10) 1000;
  ClientCallManager_delete.

Definition scenario_B : M DestructorState :=
  do _ <- scenario_B_start;
  do _ <- poll_to_return 1 [(2000%Z, GOT 1 false); (2001%Z, SHUT_DOWN)];
  do _ <- poll_to_return 0 [(2002%Z, SHUT_DOWN)];
  do s <- get;
  join_all (polling_threads_ s).

(** The life of one call that is delivered: it is created, completed with
    success, posted by the polling thread of its queue and run by the
    event loop. *)
Definition example_run : list Step :=
  [StepCreateCall "request" (Some 5) "Echo" (-1) (Some 10) 1000;
   StepTransportComplete 1 0%Z 42%Z;
   StepPoll 1 2000 (GOT 1 true);
   StepRunOne].

(** As many calls as [example_manager] has queues. *)
Definition example_turn : list Step :=
  [StepCreateCall "a" (Some 1) "Echo" (-1) (Some 10) 1000;
   StepCreateCall "b" None "Echo" 500 (Some 11) 1000].

(** [example_manager] with an identity in its cell, which no run of the
    manager reaches. *)
Definition example_manager_with_identity : State :=
  set_cluster_id_ "cluster-A" example_manager.

(** Three calls in a row. *)
Definition example_calls : list Step :=
  [StepCreateCall "a" (Some 1) "Echo" (-1) (Some 10) 1000;
   StepCreateCall "b" None "Echo" 500 (Some 11) 1000;
   StepCreateCall "c" (Some 3) "Echo" (-1) (Some 12) 1000].

End Examples.

(** ** Further observations *)

Section Observations.
Context `{Ext : Externals}.

(** The handlers given to [post], in the order of posting. *)
Definition posted (tr : list Event) : list (ptr * shared_ptr) :=
  omap (fun e => match e with
                 | EvPost tag h => Some (tag, h)
                 | _ => None
                 end) tr.

(** The handlers posted so far that the event loop has not taken yet,
    counted: what was posted, less what is queued. *)
Definition taken (s : State) : Z :=
  (Z.of_nat (length (posted (trace s)))
   - Z.of_nat (length (handlers_ (main_service_ s))))%Z.

(** No more callbacks have run than handlers have left the queue of the
    event loop: the callbacks invoked and the handlers still queued are
    together at most the handlers posted. *)
Definition delivery_ok (s : State) : Prop :=
  (length (callbacks_invoked (trace s))
   + length (handlers_ (main_service_ s))
   <= length (posted (trace s)))%nat.

(** The calls whose handlers are queued on the event loop. *)
Definition queued (s : State) : list ptr :=
  fst <$> handlers_ (main_service_ s).

(** Every queued handler is for a call that is allocated, and no call is
    queued twice. *)
Definition queue_ok (s : State) : Prop :=
  (forall tag, tag ∈ queued s -> is_Some (heap s !! tag)) /\ NoDup (queued s).

(** What holds of a manager between the steps of a run in which the
    environment keeps its side. *)
Definition safe (s : State) : Prop :=
  manager_ok s /\ handles_ok s /\ cluster_id_ s = ClusterID_Nil /\ queue_ok s.

(** What the environment owes the manager at a step: [RecordStart] returns
    a handle; the transport completes, and a completion queue hands out,
    only calls that are pending, that is allocated and not yet posted; a
    polling thread polls a queue that exists. *)
Definition step_allowed (s : State) (a : Step) : Prop :=
  match a with
  | StepCreateCall _ _ _ _ returned _ => returned <> None
  | StepSetClusterId _ => True
  | StepTransportComplete tag _ _ => is_Some (heap s !! tag)
  | StepPoll index _ next =>
      cq_index_ok s index /\
      (next_status next = GOT_EVENT ->
       is_Some (heap s !! got_tag next) /\ got_tag next ∉ queued s)
  | StepRunOne => True
  end.

(** Every step of [l] is allowed in the state in which it runs. *)
Fixpoint allowed (l : list Step) (s : State) : Prop :=
  match l with
  | [] => True
  | a :: l' =>
      step_allowed s a /\
      match step a s with
      | Returned _ s' => allowed l' s'
      | Aborted _ _ => True
      end
  end.

(** A completion queue on which [Shutdown()] was called. *)
Definition shut_down : CompletionQueue := {| cq_shutdown := true |}.

(** The body of the first loop of the destructor, lines 189-191. *)
Definition shutdown_cq (i : nat) : M unit :=
  do s <- get;
  do _ <- modify (set_cqs_ (<[i := {| cq_shutdown := true |}]> (cqs_ s)));
  emit (EvCqShutdown i).

End Observations.

(** * Properties *)

Section Properties.
Context `{Ext : Externals}.

(** ** The constructor *)

Lemma fold_start_polling_thread (l : list Z) (s : State) :
  let s' := fold_left start_polling_thread l s in
  cluster_id_ s' = cluster_id_ s /\ main_service_ s' = main_service_ s /\
  num_threads_ s' = num_threads_ s /\ shutdown_ s' = shutdown_ s /\
  rr_index_ s' = rr_index_ s /\
  length (cqs_ s') = (length (cqs_ s) + length l)%nat /\
  polling_threads_ s' = polling_threads_ s ++ l /\
  call_timeout_ms_ s' = call_timeout_ms_ s /\ heap s' = heap s /\
  next_ptr s' = next_ptr s /\ use_count s' = use_count s /\
  trace s' = trace s.
Proof.
  revert s. induction l as [|i l IH]; intros s; simpl.
  - rewrite Nat.add_0_r, app_nil_r. tauto.
  - specialize (IH (start_polling_thread s i)). simpl in IH.
    destruct IH
      as (H1 & H2 & H3 & H4 & H5 & H6 & H7 & H8 & H9 & H10 & H11 & H12).
    rewrite H1, H2, H3, H4, H5, H6, H7, H8, H9, H10, H11, H12.
    simpl. rewrite length_app, <- app_assoc. simpl.
    repeat split; lia.
Qed.

Lemma UINT_MODULUS_eq : UINT_MODULUS = 4294967296%Z.
Proof. reflexivity. Qed.

Lemma INT_MAX_eq : INT_MAX = 2147483647%Z.
Proof. reflexivity. Qed.

(** A positive number of threads and a value of [rand()], which is never
    negative, build a well-formed manager whose counter starts at
    [rand() % num_threads] and whose identity cell is nil, whatever
    [cluster_id] is given. *)
Lemma ClientCallManager_new_ok main_service cluster_id P call_timeout_ms r :
  (0 < P <= INT_MAX)%Z -> (0 <= r)%Z ->
  exists s,
    ClientCallManager_new main_service cluster_id P call_timeout_ms r
      = Built s /\
    manager_ok s /\ cluster_id_ s = ClusterID_Nil /\
    rr_index_ s = (r mod P)%Z /\ num_threads_ s = P /\
    main_service_ s = main_service /\ shutdown_ s = false /\
    call_timeout_ms_ s = call_timeout_ms /\ polling_threads_ s = seqZ 0 P /\
    heap s = ∅ /\ trace s = [].
Proof.
  intros HP Hr. unfold ClientCallManager_new.
  destruct (Z.eqb_spec P 0) as [?|_]; [lia|].
  destruct (Z.ltb_spec P 0) as [?|_]; [lia|].
  eexists. split; [reflexivity|].
  match goal with |- context [fold_left _ ?l ?s] =>
    pose proof (fold_start_polling_thread l s) as H end.
  simpl in H.
  destruct H as (H1 & H2 & H3 & H4 & H5 & H6 & H7 & H8 & H9 & H10 & H11 & H12).
  rewrite length_seqZ in H6.
  assert (Hrem : to_unsigned (Z.rem r P) = (r mod P)%Z).
  { rewrite Z.rem_mod_nonneg by lia. unfold to_unsigned.
    apply Z.mod_small. pose proof (Z.mod_pos_bound r P).
    rewrite UINT_MODULUS_eq. rewrite INT_MAX_eq in HP. lia. }
  unfold manager_ok. rewrite H1, H2, H3, H4, H5, H6, H7, H8, H9, H12, Hrem.
  repeat split; try lia; try reflexivity.
  - apply Z.mod_pos_bound; lia.
  - pose proof (Z.mod_pos_bound r P). rewrite UINT_MODULUS_eq.
    rewrite INT_MAX_eq in HP. lia.
Qed.

(** ** [CreateCall] *)

Lemma to_unsigned_num_threads s :
  manager_ok s -> to_unsigned (num_threads_ s) = num_threads_ s.
Proof.
  intros (Hn & _). unfold to_unsigned. apply Z.mod_small.
  rewrite UINT_MODULUS_eq. rewrite INT_MAX_eq in Hn. lia.
Qed.

Lemma cqs_lookup_round_robin s (i : Z) :
  manager_ok s -> (0 <= i)%Z ->
  is_Some (cqs_ s !! Z.to_nat (i mod num_threads_ s)).
Proof.
  intros (Hn & Hlen & _) Hi. apply lookup_lt_is_Some. rewrite Hlen.
  pose proof (Z.mod_pos_bound i (num_threads_ s)). lia.
Qed.

(** What one [CreateCall] does to a well-formed manager. *)
Lemma CreateCall_spec
    s request callback call_name method_timeout_ms returned now :
  manager_ok s ->
  let timeout :=
    if (method_timeout_ms =? -1)%Z then call_timeout_ms_ s
    else method_timeout_ms in
  let call :=
    ClientCallImpl_new callback (cluster_id_ s) returned timeout now in
  let i := Z.to_nat (rr_index_ s mod num_threads_ s) in
  let tag := next_ptr s in
  exists s',
    CreateCall request callback call_name method_timeout_ms returned now s
      = Returned tt s' /\
    trace s' = trace s ++ [EvRecordStart call_name returned;
                           EvPrepareAsync i tag request (context_ call);
                           EvStartCall tag; EvFinish tag] /\
    heap s' = <[tag := set_response_reader_ (Some i) call]> (heap s) /\
    rr_index_ s' = to_unsigned (rr_index_ s + 1) /\
    cluster_id_ s' = cluster_id_ s /\ num_threads_ s' = num_threads_ s /\
    cqs_ s' = cqs_ s /\ main_service_ s' = main_service_ s /\
    shutdown_ s' = shutdown_ s /\ call_timeout_ms_ s' = call_timeout_ms_ s /\
    next_ptr s' = S tag /\
    use_count s' = match returned with
                   | Some h => incr h (use_count s)
                   | None => use_count s
                   end.
Proof.
  intros Hok timeout call i tag.
  pose proof (to_unsigned_num_threads s Hok) as Hn.
  assert (Hi : (0 <= rr_index_ s)%Z) by (destruct Hok as (_ & _ & ?); lia).
  destruct (cqs_lookup_round_robin s (rr_index_ s) Hok Hi) as [cq Hcq].
  assert (Hnz : (num_threads_ s =? 0)%Z = false)
    by (apply Z.eqb_neq; destruct Hok as (? & _); lia).
  assert (Hneg : (rr_index_ s mod num_threads_ s <? 0)%Z = false).
  { apply Z.ltb_ge. apply Z.mod_pos_bound. destruct Hok as (? & _); lia. }
  unfold CreateCall, RecordStart, shared_ptr_copy, new, next_cq_index, cqs_at,
    deref, store, emit, modify, get, bind, ret, abort.
  destruct returned as [h|]; simpl;
    rewrite Hn, Hnz; simpl; rewrite Hneg, Hcq; simpl;
    rewrite lookup_insert_eq; simpl;
    (eexists; split; [reflexivity|]); simpl;
    rewrite insert_insert_eq, <- !app_assoc; simpl;
    repeat split; reflexivity.
Qed.

Lemma CreateCall_manager_ok
    s request callback call_name method_timeout_ms returned now s' :
  manager_ok s ->
  CreateCall request callback call_name method_timeout_ms returned now s
    = Returned tt s' ->
  manager_ok s'.
Proof.
  intros Hok Hrun.
  destruct (CreateCall_spec s request callback call_name method_timeout_ms
              returned now Hok)
    as (s1 & Hrun1 & _ & _ & Hrr & _ & Hn & Hcqs & _).
  rewrite Hrun1 in Hrun. injection Hrun as <-.
  destruct Hok as (H1 & H2 & H3). unfold manager_ok.
  rewrite Hn, Hcqs, Hrr. repeat split; try lia.
  - apply Z.mod_pos_bound. rewrite UINT_MODULUS_eq. lia.
  - apply Z.mod_pos_bound. rewrite UINT_MODULUS_eq. lia.
Qed.

Lemma sent_to_app (t1 t2 : list Event) :
  sent_to (t1 ++ t2) = sent_to t1 ++ sent_to t2.
Proof. apply omap_app. Qed.

Lemma sent_contexts_app (t1 t2 : list Event) :
  sent_contexts (t1 ++ t2) = sent_contexts t1 ++ sent_contexts t2.
Proof. apply omap_app. Qed.

Lemma callbacks_invoked_app (t1 t2 : list Event) :
  callbacks_invoked (t1 ++ t2) = callbacks_invoked t1 ++ callbacks_invoked t2.
Proof. apply omap_app. Qed.

(** A run of [CreateCall]s on a well-formed manager: every call returns,
    and the queues are taken in the order of the counter. *)
Lemma CreateCalls_round_robin (l : list Step) :
  forallb is_CreateCall l = true ->
  forall s, manager_ok s ->
  exists s',
    steps l s = Returned tt s' /\ manager_ok s' /\
    num_threads_ s' = num_threads_ s /\
    rr_index_ s' = to_unsigned (rr_index_ s + Z.of_nat (length l)) /\
    sent_to (trace s') =
      sent_to (trace s)
      ++ map (nth_cq (rr_index_ s) (num_threads_ s)) (seq 0 (length l)).
Proof.
  induction l as [|a l IH]; intros Hall s Hok.
  - exists s. simpl. rewrite app_nil_r, Z.add_0_r. unfold to_unsigned.
    destruct Hok as (H1 & H2 & H3). rewrite (Z.mod_small _ _ H3).
    unfold manager_ok. auto.
  - simpl in Hall. apply andb_prop in Hall as [Ha Hl].
    destruct a as [request callback call_name timeout returned now| | | |];
      try discriminate Ha.
    destruct (CreateCall_spec s request callback call_name timeout returned
                now Hok)
      as (s1 & Hrun1 & Htr & _ & Hrr & _ & Hn & _).
    pose proof (CreateCall_manager_ok _ _ _ _ _ _ _ _ Hok Hrun1) as Hok1.
    destruct (IH Hl s1 Hok1) as (s' & Hrun & Hok' & Hn' & Hrr' & Hsent).
    exists s'. unfold steps in *. simpl. unfold bind at 1. simpl.
    rewrite Hrun1. split; [exact Hrun|]. split; [exact Hok'|].
    split; [congruence|].
    split.
    { rewrite Hrr', Hrr. unfold to_unsigned. rewrite Zplus_mod_idemp_l.
      f_equal. lia. }
    rewrite Hsent, Htr, sent_to_app, <- app_assoc. f_equal.
    rewrite <- seq_shift, map_map. simpl. f_equal.
    + unfold nth_cq. rewrite Z.add_0_r.
      destruct Hok as (_ & _ & Hr). rewrite (Z.mod_small _ _ Hr). reflexivity.
    + apply map_ext. intros k. unfold nth_cq. rewrite Hrr, Hn.
      unfold to_unsigned. rewrite Zplus_mod_idemp_l.
      do 3 f_equal. lia.
Qed.

(** C3 (as amended): a manager with [P] completion queues sends its calls
    to the queues in cyclic order, driven by the 32-bit counter
    [rr_index_] taken modulo [P]; the counter does not start at 0 but at
    [rand() % P].  Counting from 0, the [i]-th call goes to queue
    [((rand() % P + i) mod 2^32) mod P], which is [(rand() + i) mod P] as
    long as the counter has not wrapped around; every call moves the
    counter by one. *)
Theorem C3_round_robin_from_random_start
    main_service cluster_id P call_timeout_ms r (l : list Step) :
  (0 < P <= INT_MAX)%Z -> (0 <= r)%Z ->
  forallb is_CreateCall l = true ->
  exists s0 s',
    ClientCallManager_new main_service cluster_id P call_timeout_ms r
      = Built s0 /\
    steps l s0 = Returned tt s' /\
    rr_index_ s' = to_unsigned (r mod P + Z.of_nat (length l)) /\
    sent_to (trace s') = map (nth_cq (r mod P) P) (seq 0 (length l)) /\
    ((r mod P + Z.of_nat (length l) <= UINT_MODULUS)%Z ->
     sent_to (trace s') =
       map (fun i => Z.to_nat ((r + Z.of_nat i) mod P)) (seq 0 (length l))).
Proof.
  intros HP Hr Hall.
  destruct (ClientCallManager_new_ok main_service cluster_id P call_timeout_ms
              r HP Hr)
    as (s0 & Hnew & Hok & _ & Hrr & Hn & _ & _ & _ & _ & _ & Htr).
  destruct (CreateCalls_round_robin l Hall s0 Hok)
    as (s' & Hrun & _ & _ & Hrr' & Hsent).
  rewrite Htr, Hrr, Hn in Hsent. simpl in Hsent. rewrite Hrr in Hrr'.
  exists s0, s'. repeat split; try assumption.
  intros Hwrap. rewrite Hsent. apply map_ext_in. intros i Hi.
  apply in_seq in Hi. unfold nth_cq.
  pose proof (Z.mod_pos_bound r P).
  rewrite (Z.mod_small (r mod P + Z.of_nat i)) by lia.
  rewrite Zplus_mod_idemp_l. reflexivity.
Qed.

(** The context that [CreateCall] gives to the transport: the deadline
    comes from the effective timeout, and the identity header is attached
    when the stored identity is not nil. *)
Lemma CreateCall_context
    s request callback call_name method_timeout_ms returned now :
  manager_ok s ->
  let effective :=
    if (method_timeout_ms =? -1)%Z then call_timeout_ms_ s
    else method_timeout_ms in
  exists s' ctx,
    CreateCall request callback call_name method_timeout_ms returned now s
      = Returned tt s' /\
    sent_contexts (trace s') = sent_contexts (trace s) ++ [ctx] /\
    context_ <$> heap s' !! next_ptr s = Some ctx /\
    deadline ctx =
      (if (effective =? -1)%Z then None
       else Some (deadline_after now effective)) /\
    metadata ctx =
      (if IsNil (cluster_id_ s) then []
       else [(kClusterIdKey, ClusterID_Hex (cluster_id_ s))]).
Proof.
  intros Hok effective.
  destruct (CreateCall_spec s request callback call_name method_timeout_ms
              returned now Hok)
    as (s' & Hrun & Htr & Hheap & _).
  eexists s', _. split; [exact Hrun|].
  rewrite Htr, sent_contexts_app, Hheap, lookup_insert_eq. simpl.
  split; [reflexivity|]. split; [reflexivity|].
  fold effective. unfold ClientCallImpl_new.
  destruct (effective =? -1)%Z, (IsNil (cluster_id_ s)); simpl; auto.
Qed.

(** ** [SetClusterId] *)

(** The whole of [SetClusterId]: the cell is nil afterwards, and the call
    is fatal when the cell held an identity other than nil and other than
    the argument. *)
Lemma SetClusterId_spec s cluster_id :
  SetClusterId cluster_id s =
    if IsNil (cluster_id_ s) || bool_decide (cluster_id_ s = cluster_id)
    then Returned tt (set_cluster_id_ ClusterID_Nil s)
    else Aborted (FatalClusterIdMismatch cluster_id (cluster_id_ s))
                 (set_cluster_id_ ClusterID_Nil s).
Proof.
  unfold SetClusterId, bind, get, modify, abort, ret. simpl.
  destruct (IsNil (cluster_id_ s)), (bool_decide (cluster_id_ s = cluster_id));
    reflexivity.
Qed.

(** The fatal path is taken from a state whose cell holds another
    identity. *)
Lemma SetClusterId_fatal s cluster_id :
  cluster_id_ s <> ClusterID_Nil -> cluster_id_ s <> cluster_id ->
  SetClusterId cluster_id s =
    Aborted (FatalClusterIdMismatch cluster_id (cluster_id_ s))
            (set_cluster_id_ ClusterID_Nil s).
Proof.
  intros Hnil Hne. rewrite SetClusterId_spec. unfold IsNil.
  rewrite !bool_decide_eq_false_2 by assumption. reflexivity.
Qed.

Lemma SetClusterId_from_nil s cluster_id :
  cluster_id_ s = ClusterID_Nil ->
  SetClusterId cluster_id s = Returned tt (set_cluster_id_ ClusterID_Nil s).
Proof.
  intros Hnil. rewrite SetClusterId_spec. unfold IsNil.
  rewrite (bool_decide_eq_true_2 _ Hnil). reflexivity.
Qed.

Lemma SetClusterId_manager_ok s cluster_id s' :
  manager_ok s -> SetClusterId cluster_id s = Returned tt s' -> manager_ok s'.
Proof.
  intros Hok. rewrite SetClusterId_spec.
  destruct (_ || _); [|discriminate]. intros [= <-]. exact Hok.
Qed.

(** C1: on a manager as the constructor builds it, [SetClusterId(V1)]
    followed by [SetClusterId(V2)] returns both times, for all identities
    [V1] and [V2]: also for two distinct identities that are not nil, for
    which the diagnostic of line 241 is written. *)
Theorem C1_second_SetClusterId_returns
    main_service cluster_id P call_timeout_ms r (V1 V2 : ClusterID) :
  (0 < P <= INT_MAX)%Z -> (0 <= r)%Z ->
  exists s0 s1 s2,
    ClientCallManager_new main_service cluster_id P call_timeout_ms r
      = Built s0 /\
    SetClusterId V1 s0 = Returned tt s1 /\
    SetClusterId V2 s1 = Returned tt s2.
Proof.
  intros HP Hr.
  destruct (ClientCallManager_new_ok main_service cluster_id P call_timeout_ms
              r HP Hr) as (s0 & Hnew & _ & Hnil & _).
  exists s0. eexists _, _. split; [exact Hnew|].
  split; [apply SetClusterId_from_nil, Hnil|].
  apply SetClusterId_from_nil. reflexivity.
Qed.

(** C2: on a manager as the constructor builds it, a call created after
    [SetClusterId(V)] has returned is sent without any metadata, for every
    identity [V]: also for one that is not nil, which lines 82-84 would
    attach as header had it been stored. *)
Theorem C2_no_header_after_SetClusterId
    main_service cluster_id P call_timeout_ms r (V : ClusterID)
    request callback call_name method_timeout_ms returned now :
  (0 < P <= INT_MAX)%Z -> (0 <= r)%Z ->
  exists s0 s1 s2 ctx,
    ClientCallManager_new main_service cluster_id P call_timeout_ms r
      = Built s0 /\
    SetClusterId V s0 = Returned tt s1 /\
    CreateCall request callback call_name method_timeout_ms returned now s1
      = Returned tt s2 /\
    sent_contexts (trace s2) = [ctx] /\
    metadata ctx = [] /\ header kClusterIdKey ctx = None.
Proof.
  intros HP Hr.
  destruct (ClientCallManager_new_ok main_service cluster_id P call_timeout_ms
              r HP Hr)
    as (s0 & Hnew & Hok & Hnil & _ & _ & _ & _ & _ & _ & _ & Htr).
  pose proof (SetClusterId_from_nil s0 V Hnil) as Hset.
  pose proof (SetClusterId_manager_ok _ _ _ Hok Hset) as Hok1.
  destruct (CreateCall_context _ request callback call_name method_timeout_ms
              returned now Hok1) as (s2 & ctx & Hrun & Hsent & _ & _ & Hmeta).
  exists s0. eexists _, s2, ctx. split; [exact Hnew|].
  split; [exact Hset|]. split; [exact Hrun|].
  simpl in Hsent, Hmeta. rewrite Htr in Hsent. unfold IsNil in Hmeta.
  rewrite bool_decide_eq_true_2 in Hmeta by reflexivity.
  split; [exact Hsent|]. split; [exact Hmeta|].
  unfold header. rewrite Hmeta. reflexivity.
Qed.


(** Where neither the conversion to nanoseconds nor the sum leaves the
    range of [int64_t], the deadline is the clock plus the timeout. *)
Lemma deadline_after_in_range (now timeout_ms : Z) :
  (INT64_MIN <= timeout_ms * NANOS_PER_MILLI <= INT64_MAX)%Z ->
  (INT64_MIN <= now + timeout_ms * NANOS_PER_MILLI <= INT64_MAX)%Z ->
  deadline_after now timeout_ms = (now + timeout_ms * NANOS_PER_MILLI)%Z.
Proof.
  unfold deadline_after, to_int64, INT64_MIN, INT64_MAX. intros H1 H2.
  rewrite (Z.mod_small (timeout_ms * NANOS_PER_MILLI + 2 ^ 63)) by lia.
  replace (timeout_ms * NANOS_PER_MILLI + 2 ^ 63 - 2 ^ 63)%Z
    with (timeout_ms * NANOS_PER_MILLI)%Z by lia.
  rewrite Z.mod_small by lia. lia.
Qed.

(** C6: the timeout of a call is the [method_timeout_ms] given to
    [CreateCall] unless that is -1, in which case it is the manager's
    [call_timeout_ms_]; the context of the call has a deadline exactly
    when that timeout is not -1.  The deadline is then what lines 78-79
    compute from the clock and that timeout in 64-bit arithmetic, which is
    the clock plus the timeout as long as nothing overflows. *)
Theorem C6_effective_timeout_and_deadline
    s request callback call_name method_timeout_ms returned now :
  manager_ok s ->
  let effective :=
    if (method_timeout_ms =? -1)%Z then call_timeout_ms_ s
    else method_timeout_ms in
  exists s' ctx,
    CreateCall request callback call_name method_timeout_ms returned now s
      = Returned tt s' /\
    sent_contexts (trace s') = sent_contexts (trace s) ++ [ctx] /\
    context_ <$> heap s' !! next_ptr s = Some ctx /\
    (is_Some (deadline ctx) <-> effective <> (-1)%Z) /\
    (effective <> (-1)%Z ->
     deadline ctx = Some (deadline_after now effective)) /\
    (effective <> (-1)%Z ->
     (INT64_MIN <= effective * NANOS_PER_MILLI <= INT64_MAX)%Z ->
     (INT64_MIN <= now + effective * NANOS_PER_MILLI <= INT64_MAX)%Z ->
     deadline ctx = Some (now + effective * NANOS_PER_MILLI)%Z).
Proof.
  intros Hok effective.
  destruct (CreateCall_context s request callback call_name method_timeout_ms
              returned now Hok)
    as (s' & ctx & Hrun & Hsent & Hheap & Hdl & _).
  exists s', ctx. split; [exact Hrun|]. split; [exact Hsent|].
  split; [exact Hheap|]. fold effective in Hdl. rewrite Hdl.
  destruct (Z.eqb_spec effective (-1)) as [He|He].
  - split; [split; [intros [? [=]]|intros; contradiction]|].
    split; intros; contradiction.
  - split; [split; [intros _; exact He|eauto]|].
    split; [reflexivity|].
    intros _ H1 H2. rewrite (deadline_after_in_range now effective H1 H2).
    reflexivity.
Qed.

(** ** Fields that an operation leaves alone *)

Lemma keeps_ret {X A} (f : State -> X) (a : A) : keeps f (ret a).
Proof. intros s. reflexivity. Qed.

Lemma keeps_get {X} (f : State -> X) : keeps f get.
Proof. intros s. reflexivity. Qed.

Lemma keeps_abort {X A} (f : State -> X) d : keeps f (abort (A := A) d).
Proof. intros s. reflexivity. Qed.

Lemma keeps_bind {X A B} (f : State -> X) (m : M A) (k : A -> M B) :
  keeps f m -> (forall a, keeps f (k a)) -> keeps f (bind m k).
Proof.
  intros Hm Hk s. unfold bind. specialize (Hm s).
  destruct (m s) as [a s'|d s']; simpl in *; [|exact Hm].
  rewrite <- Hm. apply Hk.
Qed.

Lemma keeps_modify {X} (f : State -> X) (g : State -> State) :
  (forall s, f (g s) = f s) -> keeps f (modify g).
Proof. intros Hg s. apply Hg. Qed.

Lemma keeps_deref {X} (f : State -> X) p : keeps f (deref p).
Proof. intros s. unfold deref. destruct (heap s !! p); reflexivity. Qed.

Lemma keeps_cqs_at {X} (f : State -> X) i : keeps f (cqs_at i).
Proof. intros s. unfold cqs_at. repeat case_match; reflexivity. Qed.

Lemma keeps_RAY_CHECK {X} (f : State -> X) b text : keeps f (RAY_CHECK b text).
Proof. intros s. unfold RAY_CHECK. destruct b; reflexivity. Qed.

End Properties.

Create HintDb keeps.
#[global] Hint Resolve keeps_ret keeps_get keeps_abort keeps_deref keeps_cqs_at
  keeps_RAY_CHECK : keeps.

(** Takes a goal [keeps f m] apart along the structure of [m]; [f] is a
    field of the state, so what is left of [modify] and [new] is closed by
    computation. *)
Ltac keeps_step :=
  lazymatch goal with
  | |- keeps _ (bind _ _) => apply keeps_bind; [|intros ?]
  | |- keeps _ (modify _) =>
      apply keeps_modify; intros ?; repeat case_match;
      first [ reflexivity
            | cbv beta; simpl; rewrite omap_app; simpl; apply app_nil_r ]
  | |- keeps _ (if ?b then _ else _) => destruct b
  | |- keeps _ (match ?x with _ => _ end) => destruct x
  | |- keeps _ _ => first [ solve [auto with keeps] | intros ?; reflexivity ]
  end.

Ltac keeps_all :=
  unfold CreateCall, SetClusterId, transport_complete, poll_iteration, run_one,
    posted_handler, RecordStart, post, OnReplyReceived, SetReturnStatus,
    GetStatsHandle, GetStatus, delete_call, shared_ptr_copy,
    shared_ptr_release, next_cq_index, store, emit;
  repeat keeps_step.

Section Frames.
Context `{Ext : Externals}.

(** No step writes the identity cell, but for [SetClusterId]. *)
Lemma CreateCall_keeps_cluster_id
    request callback call_name timeout returned now :
  keeps cluster_id_
    (CreateCall request callback call_name timeout returned now).
Proof. keeps_all. Qed.

Lemma transport_complete_keeps_cluster_id tag st r :
  keeps cluster_id_ (transport_complete tag st r).
Proof. keeps_all. Qed.

Lemma poll_iteration_keeps_cluster_id index now next :
  keeps cluster_id_ (poll_iteration index now next).
Proof. keeps_all. Qed.

Lemma run_one_keeps_cluster_id : keeps cluster_id_ run_one.
Proof. keeps_all. Qed.

(** The polling loop does not write the shutdown flag. *)
Lemma poll_iteration_keeps_shutdown index now next :
  keeps shutdown_ (poll_iteration index now next).
Proof. keeps_all. Qed.

Lemma poll_iteration_keeps_cqs index now next :
  keeps cqs_ (poll_iteration index now next).
Proof. keeps_all. Qed.

End Frames.

Section Poller.
Context `{Ext : Externals}.

Lemma cqs_at_ok s index :
  cq_index_ok s index -> exists cq, cqs_at index s = Returned cq s.
Proof.
  intros [H0 Hlt]. unfold cqs_at.
  destruct (Z.ltb_spec index 0) as [?|_]; [lia|].
  destruct (lookup_lt_is_Some_2 _ _ Hlt) as [cq ->]. eauto.
Qed.

(** A turn of the loop in which [AsyncNext] brings no event. *)
Lemma poll_iteration_no_event s index now next :
  cq_index_ok s index -> next_status next <> GOT_EVENT ->
  poll_iteration index now next s =
    Returned
      (if bool_decide (next_status next = SHUTDOWN) || shutdown_ s
       then Break else Continue)
      (set_trace (trace s ++ [EvAsyncNext index (now + 250)]) s).
Proof.
  intros Hidx Hst. destruct (cqs_at_ok s index Hidx) as [cq Hcq].
  unfold poll_iteration, bind, emit, modify, get, ret. rewrite Hcq. simpl.
  destruct (next_status next); try contradiction; simpl;
    destruct (shutdown_ s); reflexivity.
Qed.

(** A turn of the loop in which [AsyncNext] brings the tag of a call that
    is allocated and has a stats handle. *)
Lemma poll_iteration_event s index now next c h :
  cq_index_ok s index -> next_status next = GOT_EVENT ->
  heap s !! got_tag next = Some c -> stats_handle_ c = Some h ->
  let tag := got_tag next in
  let converted := GrpcStatusToRayStatus (status_ c) in
  let finalized :=
    [EvAsyncNext index (now + 250); EvMutexLock tag;
     EvWriteReturnStatus tag converted; EvMutexUnlock tag] in
  exists s',
    poll_iteration index now next s = Returned Continue s' /\
    if ok next && negb (stopped_ (main_service_ s)) && negb (shutdown_ s)
    then
      trace s' = trace s ++ finalized ++ [EvPost tag (Some h)] /\
      heap s' = <[tag := set_return_status_ converted c]> (heap s) /\
      main_service_ s' =
        {| stopped_ := stopped_ (main_service_ s);
           handlers_ := handlers_ (main_service_ s) ++ [(tag, Some h)] |} /\
      use_count s' = incr h (use_count s)
    else
      trace s' = trace s ++ finalized ++ [EvDelete tag] /\
      heap s' = delete tag (heap s) /\
      main_service_ s' = main_service_ s /\
      use_count s' = decr h (decr h (incr h (use_count s))).
Proof.
  intros Hidx Hst Hc Hh tag converted finalized.
  destruct (cqs_at_ok s index Hidx) as [cq Hcq].
  unfold poll_iteration, SetReturnStatus, GetStatsHandle, shared_ptr_copy,
    RAY_CHECK, post, delete_call, shared_ptr_release, drop_owner, deref, store,
    bind, emit, modify, get, ret, abort.
  subst tag. rewrite Hcq, Hst.
  repeat (simpl; rewrite ?Hc, ?lookup_insert_eq, ?Hh).
  destruct (ok next), (stopped_ (main_service_ s)) eqn:Hstop, (shutdown_ s);
    repeat (simpl; rewrite ?Hc, ?lookup_insert_eq, ?Hh);
    (eexists; split; [reflexivity|]); simpl;
    rewrite <- ?app_assoc, ?delete_insert_eq, ?Hstop; simpl;
    repeat split; reflexivity.
Qed.

(** The check of line 278 is live: a call without a stats handle aborts
    the polling thread. *)
Lemma poll_iteration_null_handle s index now next c :
  cq_index_ok s index -> next_status next = GOT_EVENT ->
  heap s !! got_tag next = Some c -> stats_handle_ c = None ->
  exists s',
    poll_iteration index now next s =
      Aborted (CheckFailed "stats_handle != nullptr") s'.
Proof.
  intros Hidx Hst Hc Hh. destruct (cqs_at_ok s index Hidx) as [cq Hcq].
  unfold poll_iteration, SetReturnStatus, GetStatsHandle, shared_ptr_copy,
    RAY_CHECK, deref, store, bind, emit, modify, get, ret, abort.
  rewrite Hcq, Hst.
  repeat (simpl; rewrite ?Hc, ?lookup_insert_eq, ?Hh).
  eexists. reflexivity.
Qed.

(** The handler that was posted for a call, run while the call is
    allocated: the status is read under the lock, the callback, when there
    is one, gets that status and the reply, and the call is deleted. *)
Lemma posted_handler_spec s tag c :
  heap s !! tag = Some c ->
  exists s',
    posted_handler tag s = Returned tt s' /\
    trace s' =
      trace s
      ++ [EvMutexLock tag; EvReadReturnStatus tag (return_status_ c);
          EvMutexUnlock tag]
      ++ match callback_ c with
         | Some cb => [EvCallback cb (return_status_ c) (reply_ c)]
         | None => []
         end
      ++ [EvDelete tag] /\
    heap s' = delete tag (heap s) /\
    use_count s' = drop_owner (stats_handle_ c) (use_count s) /\
    main_service_ s' = main_service_ s.
Proof.
  intros Hc.
  unfold posted_handler, OnReplyReceived, delete_call, shared_ptr_release,
    deref, bind, emit, modify, get, ret.
  repeat (simpl; rewrite ?Hc).
  destruct (callback_ c) as [cb|];
    repeat (simpl; rewrite ?Hc);
    (eexists; split; [reflexivity|]); simpl;
    rewrite <- ?app_assoc; simpl; repeat split; reflexivity.
Qed.

(** The event loop runs the handler at the head of its queue. *)
Lemma run_one_spec s tag stats_handle rest c :
  stopped_ (main_service_ s) = false ->
  handlers_ (main_service_ s) = (tag, stats_handle) :: rest ->
  heap s !! tag = Some c ->
  exists s1 s',
    posted_handler tag
      (set_main_service_ {| stopped_ := false; handlers_ := rest |} s)
      = Returned tt s1 /\
    run_one s = Returned true s' /\
    trace s' = trace s1 /\ heap s' = heap s1 /\
    main_service_ s' = {| stopped_ := false; handlers_ := rest |} /\
    use_count s' = drop_owner stats_handle (use_count s1).
Proof.
  intros Hrun Hq Hc.
  destruct (posted_handler_spec
              (set_main_service_ {| stopped_ := false; handlers_ := rest |} s)
              tag c Hc)
    as (s1 & Hs1 & _ & _ & _ & Hms).
  exists s1. unfold run_one, bind, get, modify, ret, shared_ptr_release.
  rewrite Hrun, Hq. simpl. rewrite Hs1. simpl.
  eexists. repeat split; try reflexivity. simpl. exact Hms.
Qed.

End Poller.

Section Delivery.
Context `{Ext : Externals}.

(** C4: when a polling thread takes the completion of a call off its
    queue, it posts the call to the event loop if and only if the
    completion is [ok], the event loop is not stopped and [shutdown_] is not
    set; in every other case it deletes the call itself.  No callback runs
    on the polling thread either way; the handler of a posted call, once
    the event loop runs it, invokes the callback that the call has. *)
Theorem C4_posted_iff_ok_and_running s index now tag (ok0 : bool) c h :
  cq_index_ok s index ->
  heap s !! tag = Some c -> stats_handle_ c = Some h ->
  let next := {| next_status := GOT_EVENT; got_tag := tag; ok := ok0 |} in
  let healthy :=
    ok0 && negb (stopped_ (main_service_ s)) && negb (shutdown_ s) in
  exists s',
    poll_iteration index now next s = Returned Continue s' /\
    callbacks_invoked (trace s') = callbacks_invoked (trace s) /\
    (handlers_ (main_service_ s')
       = handlers_ (main_service_ s) ++ [(tag, Some h)] <-> healthy = true) /\
    (healthy = true ->
       is_Some (heap s' !! tag) /\
       last (trace s') = Some (EvPost tag (Some h)) /\
       exists s2,
         posted_handler tag s' = Returned tt s2 /\
         callbacks_invoked (trace s2) =
           callbacks_invoked (trace s)
           ++ match callback_ c with
              | Some cb => [(cb, GrpcStatusToRayStatus (status_ c), reply_ c)]
              | None => []
              end) /\
    (healthy = false ->
       handlers_ (main_service_ s') = handlers_ (main_service_ s) /\
       heap s' !! tag = None /\ last (trace s') = Some (EvDelete tag)).
Proof.
  intros Hidx Hc Hh next healthy.
  destruct (poll_iteration_event s index now next c h Hidx eq_refl Hc Hh)
    as (s' & Hrun & Hcase).
  exists s'. split; [exact Hrun|]. simpl in Hcase. fold healthy in Hcase.
  destruct healthy.
  - destruct Hcase as (Htr & Hheap & Hms & _).
    assert (Hc' : heap s' !! tag
                  = Some (set_return_status_
                            (GrpcStatusToRayStatus (status_ c)) c))
      by (rewrite Hheap; apply lookup_insert_eq).
    destruct (posted_handler_spec s' tag _ Hc') as (s2 & Hdel & Htr2 & _).
    split; [rewrite Htr, callbacks_invoked_app; simpl; apply app_nil_r|].
    split; [rewrite Hms; simpl; tauto|].
    split; [|discriminate]. intros _.
    split; [rewrite Hc'; eauto|].
    split; [rewrite Htr, last_app; reflexivity|].
    exists s2. split; [exact Hdel|].
    rewrite Htr2, Htr, !callbacks_invoked_app. simpl.
    destruct (callback_ c); simpl; rewrite ?app_nil_r; reflexivity.
  - destruct Hcase as (Htr & Hheap & Hms & _).
    rewrite Htr, Hheap, Hms.
    split; [rewrite callbacks_invoked_app; simpl; apply app_nil_r|].
    split.
    + split; [|discriminate]. intros Heq. exfalso.
      apply (f_equal length) in Heq. rewrite length_app in Heq.
      simpl in Heq. lia.
    + split; [discriminate|]. intros _.
      split; [reflexivity|].
      split; [apply lookup_delete_eq|].
      rewrite last_app. reflexivity.
Qed.

(** C5: for a call that is delivered, the polling thread first writes the
    conversion of the transport's status to [return_status_] between lock
    and unlock of the call's mutex; the posted handler then reads it
    between lock and unlock, and calls the callback, after the unlock, with
    that status and the reply. *)
Theorem C5_callback_gets_converted_status s index now tag c h cb :
  cq_index_ok s index ->
  heap s !! tag = Some c -> stats_handle_ c = Some h ->
  callback_ c = Some cb ->
  stopped_ (main_service_ s) = false -> shutdown_ s = false ->
  let next := {| next_status := GOT_EVENT; got_tag := tag; ok := true |} in
  let converted := GrpcStatusToRayStatus (status_ c) in
  exists s1 s2,
    poll_iteration index now next s = Returned Continue s1 /\
    trace s1 =
      trace s
      ++ [EvAsyncNext index (now + 250); EvMutexLock tag;
          EvWriteReturnStatus tag converted; EvMutexUnlock tag;
          EvPost tag (Some h)] /\
    return_status_ <$> heap s1 !! tag = Some converted /\
    posted_handler tag s1 = Returned tt s2 /\
    trace s2 =
      trace s1
      ++ [EvMutexLock tag; EvReadReturnStatus tag converted;
          EvMutexUnlock tag; EvCallback cb converted (reply_ c);
          EvDelete tag] /\
    callbacks_invoked (trace s2) =
      callbacks_invoked (trace s) ++ [(cb, converted, reply_ c)].
Proof.
  intros Hidx Hc Hh Hcb Hrun Hshut next converted.
  destruct (poll_iteration_event s index now next c h Hidx eq_refl Hc Hh)
    as (s1 & Hpoll & Hcase).
  simpl in Hcase. rewrite Hrun, Hshut in Hcase. simpl in Hcase.
  destruct Hcase as (Htr1 & Hheap1 & _).
  assert (Hc1 : heap s1 !! tag = Some (set_return_status_ converted c))
    by (rewrite Hheap1; apply lookup_insert_eq).
  destruct (posted_handler_spec s1 tag _ Hc1) as (s2 & Hdel & Htr2 & _).
  simpl in Htr2. rewrite Hcb in Htr2. simpl in Htr2.
  exists s1, s2. split; [exact Hpoll|]. split; [exact Htr1|].
  split; [rewrite Hc1; reflexivity|]. split; [exact Hdel|].
  split; [exact Htr2|].
  rewrite Htr2, Htr1, !callbacks_invoked_app. simpl.
  rewrite app_nil_r. reflexivity.
Qed.

(** C9: for a call whose callback is null, the event loop runs the posted
    handler to its end: no callback is invoked, the call is deleted, and
    both owners of the stats handle, the call and the event loop, let go of
    it. *)
Theorem C9_null_callback_is_skipped s tag c stats_handle rest :
  heap s !! tag = Some c -> callback_ c = None ->
  stopped_ (main_service_ s) = false ->
  handlers_ (main_service_ s) = (tag, stats_handle) :: rest ->
  exists s',
    run_one s = Returned true s' /\
    trace s' =
      trace s
      ++ [EvMutexLock tag; EvReadReturnStatus tag (return_status_ c);
          EvMutexUnlock tag; EvDelete tag] /\
    callbacks_invoked (trace s') = callbacks_invoked (trace s) /\
    heap s' = delete tag (heap s) /\
    use_count s' =
      drop_owner stats_handle (drop_owner (stats_handle_ c) (use_count s)).
Proof.
  intros Hc Hcb Hrun Hq.
  destruct (run_one_spec s tag stats_handle rest c Hrun Hq Hc)
    as (s1 & s' & Hs1 & Hone & Htr & Hheap & _ & Huc).
  destruct (posted_handler_spec
              (set_main_service_ {| stopped_ := false; handlers_ := rest |} s)
              tag c Hc)
    as (s1' & Hs1' & Htr1 & Hheap1 & Huc1 & _).
  rewrite Hs1 in Hs1'. injection Hs1' as <-.
  rewrite Hcb in Htr1. simpl in Htr1, Hheap1, Huc1.
  exists s'. split; [exact Hone|].
  rewrite Htr, Hheap, Huc, Htr1, Hheap1, Huc1.
  split; [reflexivity|].
  split; [rewrite callbacks_invoked_app; simpl; apply app_nil_r|].
  split; reflexivity.
Qed.

(** C7: every turn of the polling loop gives [AsyncNext] the clock plus
    250 ms as deadline.  The turn leaves the loop exactly when [AsyncNext]
    returns [SHUTDOWN], or returns [TIMEOUT] while [shutdown_] is set; on a
    [TIMEOUT] without [shutdown_] nothing else happens and the loop goes
    on. *)
Theorem C7_poller_waits_250ms_and_exits s index now next rest :
  cq_index_ok s index ->
  (next_status next = GOT_EVENT ->
   exists c h, heap s !! got_tag next = Some c /\ stats_handle_ c = Some h) ->
  exists ctl s' tr,
    poll_iteration index now next s = Returned ctl s' /\
    trace s' = trace s ++ EvAsyncNext index (now + 250) :: tr /\
    (ctl = Break <->
       next_status next = SHUTDOWN \/
       (next_status next = TIMEOUT /\ shutdown_ s = true)) /\
    (next_status next = TIMEOUT -> shutdown_ s = false ->
       ctl = Continue /\ tr = []) /\
    poll_loop index ((now, next) :: rest) s =
      match ctl with
      | Break => Returned Exited s'
      | Continue => poll_loop index rest s'
      end.
Proof.
  intros Hidx Hev.
  assert (Hloop : forall ctl s',
    poll_iteration index now next s = Returned ctl s' ->
    poll_loop index ((now, next) :: rest) s =
      match ctl with
      | Break => Returned Exited s'
      | Continue => poll_loop index rest s'
      end).
  { intros ctl s' Hrun. simpl. unfold bind at 1. rewrite Hrun.
    destruct ctl; reflexivity. }
  destruct (next_status next) eqn:Hst.
  - pose proof (poll_iteration_no_event s index now next Hidx) as Hrun.
    rewrite Hst in Hrun. specialize (Hrun ltac:(discriminate)).
    simpl in Hrun. eexists _, _, [].
    split; [exact Hrun|]. split; [reflexivity|].
    split; [split; auto|]. split; [discriminate|]. apply (Hloop _ _ Hrun).
  - destruct (Hev eq_refl) as (c & h & Hc & Hh).
    destruct (poll_iteration_event s index now next c h Hidx Hst Hc Hh)
      as (s' & Hrun & Hcase).
    exists Continue, s'.
    destruct (ok next && negb (stopped_ (main_service_ s)) &&
              negb (shutdown_ s));
      destruct Hcase as (Htr & _); eexists;
      (split; [exact Hrun|]); (split; [rewrite Htr; reflexivity|]);
      (split; [split; [discriminate|intros [?|[? _]]; discriminate]|]);
      (split; [discriminate|]); exact (Hloop _ _ Hrun).
  - pose proof (poll_iteration_no_event s index now next Hidx) as Hrun.
    rewrite Hst in Hrun. specialize (Hrun ltac:(discriminate)).
    simpl in Hrun. eexists _, _, [].
    split; [exact Hrun|]. split; [reflexivity|].
    split.
    + destruct (shutdown_ s); split; auto; try discriminate.
      intros [?|[_ ?]]; discriminate.
    + split; [|apply (Hloop _ _ Hrun)].
      intros _ Hs. rewrite Hs. auto.
Qed.

End Delivery.

(** ** Calls keep the stats handle they were created with *)

Section Handles.
Context `{Ext : Externals}.

Lemma same_handles_refl s : same_handles s s.
Proof. intros tag c Hc. eauto. Qed.

Lemma same_handles_trans s1 s2 s3 :
  same_handles s1 s2 -> same_handles s2 s3 -> same_handles s1 s3.
Proof.
  intros H12 H23 tag c3 Hc3.
  destruct (H23 tag c3 Hc3) as (c2 & Hc2 & E23).
  destruct (H12 tag c2 Hc2) as (c1 & Hc1 & E12).
  exists c1. split; [exact Hc1|congruence].
Qed.

Lemma no_new_handles_bind {A B} (m : M A) (k : A -> M B) :
  no_new_handles m -> (forall a, no_new_handles (k a)) ->
  no_new_handles (bind m k).
Proof.
  intros Hm Hk s. unfold bind. specialize (Hm s).
  destruct (m s) as [a s'|d s']; simpl in *; [|exact Hm].
  eapply same_handles_trans; [exact Hm|apply Hk].
Qed.

Lemma no_new_handles_keeps {A} (m : M A) :
  keeps heap m -> no_new_handles m.
Proof.
  intros Hm s tag c Hc. rewrite (Hm s) in Hc. eauto.
Qed.

Lemma SetReturnStatus_no_new_handles this :
  no_new_handles (SetReturnStatus this).
Proof.
  intros s tag c'.
  unfold SetReturnStatus, deref, store, bind, emit, modify, get, ret.
  simpl. destruct (heap s !! this) as [c|] eqn:Hc; simpl; [|eauto].
  rewrite Hc. simpl. destruct (decide (this = tag)) as [->|Hne].
  - rewrite lookup_insert_eq. intros [= <-]. eauto.
  - rewrite lookup_insert_ne by exact Hne. eauto.
Qed.

Lemma transport_complete_no_new_handles tag st r :
  no_new_handles (transport_complete tag st r).
Proof.
  intros s tag' c'.
  unfold transport_complete, deref, store, bind, modify, ret.
  destruct (heap s !! tag) as [c|] eqn:Hc; simpl; [|eauto].
  destruct (decide (tag = tag')) as [->|Hne].
  - rewrite lookup_insert_eq. intros [= <-]. eauto.
  - rewrite lookup_insert_ne by exact Hne. eauto.
Qed.

Lemma delete_call_no_new_handles call : no_new_handles (delete_call call).
Proof.
  intros s tag c'.
  unfold delete_call, shared_ptr_release, deref, bind, emit, modify, ret.
  destruct (heap s !! call) as [c|] eqn:Hc; simpl; [|eauto].
  destruct (decide (call = tag)) as [->|Hne].
  - rewrite lookup_delete_eq. discriminate.
  - rewrite lookup_delete_ne by exact Hne. eauto.
Qed.

End Handles.

Ltac no_new_handles_step :=
  lazymatch goal with
  | |- no_new_handles (SetReturnStatus _) =>
      apply SetReturnStatus_no_new_handles
  | |- no_new_handles (delete_call _) => apply delete_call_no_new_handles
  | |- no_new_handles (bind _ _) => apply no_new_handles_bind; [|intros ?]
  | |- no_new_handles (if ?b then _ else _) => destruct b
  | |- no_new_handles (match ?x with _ => _ end) => destruct x
  | |- no_new_handles _ => solve [apply no_new_handles_keeps; keeps_all]
  end.

Section Reachable.
Context `{Ext : Externals}.

Lemma poll_iteration_no_new_handles index now next :
  no_new_handles (poll_iteration index now next).
Proof. unfold poll_iteration. repeat no_new_handles_step. Qed.

Lemma run_one_no_new_handles : no_new_handles run_one.
Proof. unfold run_one, posted_handler. repeat no_new_handles_step. Qed.

Lemma SetClusterId_keeps_heap cluster_id : keeps heap (SetClusterId cluster_id).
Proof. keeps_all. Qed.

(** A step that returns leaves the state it ends in. *)
Lemma step_final (a : Step) s s' :
  step a s = Returned tt s' -> final_state (step a s) = s'.
Proof. intros ->. reflexivity. Qed.

Lemma then_ret_tt {A} (m : M A) s :
  final_state ((do _ <- m; ret tt) s) = final_state (m s).
Proof. unfold bind, ret. destruct (m s); reflexivity. Qed.

(** Only [CreateCall] allocates a call. *)
Lemma step_no_new_handles (a : Step) :
  is_CreateCall a = false -> no_new_handles (step a).
Proof.
  destruct a; simpl; try discriminate; intros _.
  - apply no_new_handles_keeps, SetClusterId_keeps_heap.
  - apply transport_complete_no_new_handles.
  - intros s. rewrite then_ret_tt. apply poll_iteration_no_new_handles.
  - intros s. rewrite then_ret_tt. apply run_one_no_new_handles.
Qed.

(** Only [CreateCall] moves the round-robin counter, and nothing changes
    the number of threads or the completion queues. *)
Lemma step_keeps_manager (a : Step) :
  keeps num_threads_ (step a) /\ keeps cqs_ (step a) /\
  (is_CreateCall a = false -> keeps rr_index_ (step a)).
Proof.
  destruct a; simpl; repeat split; try discriminate; try intros _;
    keeps_all.
Qed.

Lemma step_manager_ok (a : Step) s s' :
  manager_ok s -> step a s = Returned tt s' ->
  manager_ok s' /\ num_threads_ s' = num_threads_ s.
Proof.
  intros Hok Hrun.
  destruct (step_keeps_manager a) as (Hn & Hcqs & Hrr).
  pose proof (Hn s) as Hn'. pose proof (Hcqs s) as Hcqs'.
  rewrite (step_final _ _ _ Hrun) in Hn', Hcqs'.
  split; [|exact Hn'].
  destruct (is_CreateCall a) eqn:Hcc.
  - destruct a; try discriminate. simpl in Hrun.
    eapply CreateCall_manager_ok; eassumption.
  - specialize (Hrr eq_refl s). rewrite (step_final _ _ _ Hrun) in Hrr.
    unfold manager_ok in *. rewrite Hn', Hcqs', Hrr. exact Hok.
Qed.

Lemma step_handles_ok (a : Step) s s' :
  manager_ok s -> handles_ok s -> null_handle_step a = false ->
  step a s = Returned tt s' -> handles_ok s'.
Proof.
  intros Hok Hh Hnull Hrun.
  destruct (is_CreateCall a) eqn:Hcc.
  - destruct a as [request callback call_name timeout returned now| | | |];
      try discriminate.
    destruct returned as [h|]; [|discriminate]. simpl in Hrun.
    destruct (CreateCall_spec s request callback call_name timeout (Some h)
                now Hok) as (s1 & Hrun1 & _ & Hheap & _).
    rewrite Hrun1 in Hrun. injection Hrun as <-.
    intros tag c. rewrite Hheap.
    destruct (decide (next_ptr s = tag)) as [->|Hne].
    + rewrite lookup_insert_eq. intros [= <-]. discriminate.
    + rewrite lookup_insert_ne by exact Hne. apply Hh.
  - pose proof (step_no_new_handles a Hcc s) as Hsame.
    rewrite (step_final _ _ _ Hrun) in Hsame.
    intros tag c' Hc'. destruct (Hsame tag c' Hc') as (c & Hc & ->).
    eapply Hh, Hc.
Qed.

(** Along any interleaving in which [RecordStart] never returns null, the
    manager stays well formed and every call keeps a stats handle. *)
Lemma steps_invariant (l : list Step) :
  existsb null_handle_step l = false ->
  forall s s',
    manager_ok s -> handles_ok s -> steps l s = Returned tt s' ->
    manager_ok s' /\ handles_ok s' /\ num_threads_ s' = num_threads_ s.
Proof.
  induction l as [|a l IH]; intros Hnull s s' Hok Hh Hrun.
  - injection Hrun as <-. auto.
  - simpl in Hnull. apply orb_false_iff in Hnull as [Ha Hl].
    unfold steps in Hrun. simpl in Hrun. unfold bind at 1 in Hrun.
    destruct (step a s) as [[] s1|] eqn:Hstep; [|discriminate].
    destruct (step_manager_ok a s s1 Hok Hstep) as [Hok1 Hn1].
    pose proof (step_handles_ok a s s1 Hok Hh Ha Hstep) as Hh1.
    destruct (IH Hl s1 s' Hok1 Hh1 Hrun) as (Hok' & Hh' & Hn').
    split; [exact Hok'|]. split; [exact Hh'|]. congruence.
Qed.

(** No step writes an identity other than nil to the cell. *)
Lemma step_cluster_id_nil (a : Step) s :
  cluster_id_ s = ClusterID_Nil ->
  cluster_id_ (final_state (step a s)) = ClusterID_Nil.
Proof.
  intros Hnil. destruct a; simpl.
  - rewrite CreateCall_keeps_cluster_id. exact Hnil.
  - rewrite SetClusterId_spec. destruct (_ || _); reflexivity.
  - rewrite transport_complete_keeps_cluster_id. exact Hnil.
  - rewrite then_ret_tt, poll_iteration_keeps_cluster_id. exact Hnil.
  - rewrite then_ret_tt, run_one_keeps_cluster_id. exact Hnil.
Qed.

(** Only [CreateCall] sends a request. *)
Lemma step_keeps_sent (a : Step) :
  is_CreateCall a = false ->
  keeps (fun s => sent_contexts (trace s)) (step a).
Proof.
  destruct a; simpl; try discriminate; intros _; unfold sent_contexts;
    keeps_all.
Qed.

(** Along any interleaving, from a manager as the constructor builds it,
    the identity cell stays nil and no request is sent with metadata. *)
Lemma steps_never_send_header (l : list Step) :
  forall s s',
    manager_ok s -> cluster_id_ s = ClusterID_Nil ->
    Forall (fun ctx => metadata ctx = []) (sent_contexts (trace s)) ->
    steps l s = Returned tt s' ->
    manager_ok s' /\ cluster_id_ s' = ClusterID_Nil /\
    Forall (fun ctx => metadata ctx = []) (sent_contexts (trace s')).
Proof.
  induction l as [|a l IH]; intros s s' Hok Hnil Hsent Hrun.
  - injection Hrun as <-. auto.
  - unfold steps in Hrun. simpl in Hrun. unfold bind at 1 in Hrun.
    destruct (step a s) as [[] s1|] eqn:Hstep; [|discriminate].
    destruct (step_manager_ok a s s1 Hok Hstep) as [Hok1 _].
    pose proof (step_cluster_id_nil a s Hnil) as Hnil1.
    rewrite (step_final _ _ _ Hstep) in Hnil1.
    apply (IH s1 s' Hok1 Hnil1); [|exact Hrun].
    destruct (is_CreateCall a) eqn:Hcc.
    + destruct a as [request callback call_name timeout returned now| | | |];
        try discriminate.
      destruct (CreateCall_context s request callback call_name timeout
                  returned now Hok)
        as (s1' & ctx & Hrun1 & Hsent1 & _ & _ & Hmeta).
      simpl in Hstep. rewrite Hrun1 in Hstep. injection Hstep as <-.
      rewrite Hsent1. apply Forall_app. split; [exact Hsent|].
      apply Forall_singleton. rewrite Hmeta. unfold IsNil.
      rewrite bool_decide_eq_true_2 by exact Hnil. reflexivity.
    + pose proof (step_keeps_sent a Hcc s) as Hkeep. simpl in Hkeep.
      rewrite (step_final _ _ _ Hstep) in Hkeep. rewrite Hkeep. exact Hsent.
Qed.

(** C10: take a manager as the constructor builds it and any interleaving
    of steps in which [RecordStart] returns a handle that is not null.
    Then every call that a polling thread takes off a queue has a stats
    handle, the check of line 278 holds, and the turn of the loop
    completes. *)
Theorem C10_stats_handle_check_holds
    main_service cluster_id P call_timeout_ms r (l : list Step)
    s0 s index now next c :
  (0 < P <= INT_MAX)%Z -> (0 <= r)%Z ->
  ClientCallManager_new main_service cluster_id P call_timeout_ms r
    = Built s0 ->
  existsb null_handle_step l = false ->
  steps l s0 = Returned tt s ->
  (0 <= index < P)%Z ->
  next_status next = GOT_EVENT ->
  heap s !! got_tag next = Some c ->
  stats_handle_ c <> None /\
  exists s', poll_iteration index now next s = Returned Continue s'.
Proof.
  intros HP Hr Hnew Hnull Hrun Hidx Hst Hc.
  destruct (ClientCallManager_new_ok main_service cluster_id P call_timeout_ms
              r HP Hr)
    as (s0' & Hnew' & Hok0 & _ & _ & Hn0 & _ & _ & _ & _ & Hheap0 & _).
  rewrite Hnew in Hnew'. injection Hnew' as <-.
  assert (Hh0 : handles_ok s0).
  { intros tag c0. rewrite Hheap0, lookup_empty. discriminate. }
  destruct (steps_invariant l Hnull s0 s Hok0 Hh0 Hrun) as (Hok & Hh & Hn).
  pose proof (Hh _ _ Hc) as Hsome. split; [exact Hsome|].
  destruct (stats_handle_ c) as [h|] eqn:Hhandle; [|contradiction].
  assert (Hcq : cq_index_ok s index).
  { destruct Hok as (_ & Hlen & _). split; [lia|]. rewrite Hlen, Hn, Hn0. lia. }
  destruct (poll_iteration_event s index now next c h Hcq Hst Hc Hhandle)
    as (s' & Hpoll & _).
  eauto.
Qed.

End Reachable.

(** ** The loop of an idle polling thread, and the destructor *)

Section Shutdown.
Context `{Ext : Externals}.

(** A polling thread to which [AsyncNext] brings no event leaves its
    loop at the first [SHUTDOWN], or at the first result at all once
    [shutdown_] is set, and is still polling otherwise. *)
Lemma poll_loop_idle index (inputs : list (Z * AsyncNextResult)) s :
  cq_index_ok s index ->
  Forall (fun i => next_status (snd i) <> GOT_EVENT) inputs ->
  exists s',
    poll_loop index inputs s =
      Returned
        (if existsb (fun i => bool_decide (next_status (snd i) = SHUTDOWN)
                              || shutdown_ s) inputs
         then Exited else Polling) s'.
Proof.
  revert s. induction inputs as [|[now next] rest IH]; intros s Hidx Hall.
  - simpl. eauto.
  - apply Forall_cons in Hall as [Hnext Hrest]. simpl in Hnext.
    simpl. unfold bind at 1.
    rewrite (poll_iteration_no_event s index now next Hidx Hnext).
    destruct (bool_decide (next_status next = SHUTDOWN) || shutdown_ s);
      simpl; [eauto|].
    apply (IH (set_trace _ s)); assumption.
Qed.

Lemma for_each_invariant {A} (I : State -> Prop) (l : list A)
    (body : A -> M unit) :
  (forall x s, I s -> exists s', body x s = Returned tt s' /\ I s') ->
  forall s, I s -> exists s', for_each l body s = Returned tt s' /\ I s'.
Proof.
  intros Hbody. induction l as [|x l IH]; intros s Hs; simpl.
  - eauto.
  - destruct (Hbody x s Hs) as (s1 & Hrun & Hs1).
    unfold bind at 1. rewrite Hrun. apply IH, Hs1.
Qed.

Lemma keeps_for_each {X A} (f : State -> X) (l : list A) (body : A -> M unit) :
  (forall x, keeps f (body x)) -> keeps f (for_each l body).
Proof.
  intros Hbody. induction l as [|x l IH]; simpl.
  - apply keeps_ret.
  - apply keeps_bind; [apply Hbody|]. intros _. exact IH.
Qed.

Lemma keeps_join_all {X} (f : State -> X) (threads : list Z) :
  (forall t s, f (set_trace (trace s ++ [EvJoin t]) s) = f s) ->
  keeps f (join_all threads).
Proof.
  intros Hjoin. induction threads as [|t rest IH]; simpl.
  - apply keeps_ret.
  - apply keeps_bind; [apply keeps_get|]. intros s.
    destruct (thread_finished s t); [|apply keeps_ret].
    apply keeps_bind; [|intros _; exact IH].
    unfold emit. apply keeps_modify. intros s0. apply Hjoin.
Qed.

(** Wherever the destructor gets, [shutdown_] is set. *)
Lemma ClientCallManager_delete_sets_shutdown s :
  shutdown_ (final_state (ClientCallManager_delete s)) = true.
Proof.
  unfold ClientCallManager_delete.
  unfold bind at 1, modify at 1.
  assert (Hrest : forall m : M DestructorState,
            keeps shutdown_ m ->
            shutdown_ (final_state (m (set_shutdown_ true s))) = true)
    by (intros m Hm; rewrite (Hm (set_shutdown_ true s)); reflexivity).
  apply Hrest.
  apply keeps_bind; [apply keeps_get|]. intros s0.
  apply keeps_bind; [|intros _; apply keeps_join_all; reflexivity].
  apply keeps_for_each. intros i. keeps_all.
Qed.

End Shutdown.

(** * The properties on the example states *)

Section Witnesses.
#[local] Existing Instance example_externals.

Example example_manager_built :
  ClientCallManager_new idle_loop "cluster-A" 2 (-1) 7 = Built example_manager.
Proof. vm_compute. reflexivity. Qed.

Example example_manager_3_built :
  ClientCallManager_new idle_loop "" 3 (-1) 8 = Built example_manager_3.
Proof. vm_compute. reflexivity. Qed.

(** Both callbacks of scenario A run, each once, with success and the
    reply of its call, in the order of posting; no call and no owner of a
    stats handle is left. *)
Example scenario_A_delivers :
  returns (scenario_A example_manager) = true /\
  callbacks_invoked (trace (final_state (scenario_A example_manager)))
    = [(2, StatusOK, 200%Z); (1, StatusOK, 100%Z)] /\
  heap (final_state (scenario_A example_manager)) = ∅ /\
  map_to_list (use_count (final_state (scenario_A example_manager)))
    = [(10, 0); (11, 0)].
Proof. vm_compute. repeat split; reflexivity. Qed.

(** In scenario B the destructor first gets into the [join] of thread 0;
    the polling thread of queue 1 deletes the call without running its
    callback; both threads leave their loops and return, and the
    destructor then joins them and returns. *)
Example scenario_B_drops :
  (exists s,
     scenario_B_start example_manager = Returned (Joining 0) s /\
     shutdown_ s = true) /\
  exists s,
    scenario_B example_manager = Returned Destroyed s /\
    callbacks_invoked (trace s) = [] /\ heap s = ∅ /\
    trace s =
      [EvSetThreadName "client.poll0"; EvSetThreadName "client.poll1";
       EvRecordStart "Echo" (Some 10);
       EvPrepareAsync 1 1 "request" ClientContext_default;
       EvStartCall 1; EvFinish 1; EvCqShutdown 0; EvCqShutdown 1;
       EvAsyncNext 1 2250; EvMutexLock 1; EvWriteReturnStatus 1 StatusOK;
       EvMutexUnlock 1; EvDelete 1; EvAsyncNext 1 2251; EvThreadExit 1;
       EvAsyncNext 0 2252; EvThreadExit 0; EvJoin 0; EvJoin 1].
Proof.
  split.
  - eexists. split; [vm_compute; reflexivity|]. vm_compute. reflexivity.
  - eexists. split; [vm_compute; reflexivity|]. vm_compute. auto.
Qed.

(** The fatal path of [SetClusterId] is there: it is taken from a state,
    which no run of the manager reaches, whose cell holds "cluster-A". *)
Example SetClusterId_fatal_example :
  SetClusterId "cluster-B" (set_cluster_id_ "cluster-A" example_manager)
    = Aborted (FatalClusterIdMismatch "cluster-B" "cluster-A") example_manager.
Proof. vm_compute. reflexivity. Qed.

Example example_manager_ok : manager_ok example_manager.
Proof. unfold manager_ok. simpl. rewrite UINT_MODULUS_eq, INT_MAX_eq. lia. Qed.

(** C1, at "cluster-A" followed by "cluster-B": both calls return. *)
Lemma C1_second_SetClusterId_returns_witness :
  (0 < 2 <= INT_MAX)%Z /\ (0 <= 7)%Z /\
  exists s0 s1 s2,
    ClientCallManager_new idle_loop "cluster-A" 2 (-1) 7 = Built s0 /\
    SetClusterId "cluster-A" s0 = Returned tt s1 /\
    SetClusterId "cluster-B" s1 = Returned tt s2.
Proof.
  assert (HP : (0 < 2 <= INT_MAX)%Z) by (rewrite INT_MAX_eq; lia).
  assert (Hr : (0 <= 7)%Z) by lia.
  split; [exact HP|]. split; [exact Hr|].
  exact (C1_second_SetClusterId_returns idle_loop "cluster-A" 2 (-1) 7
           "cluster-A" "cluster-B" HP Hr).
Defined.

(** C2, at "cluster-A": the call that follows is sent without header. *)
Lemma C2_no_header_after_SetClusterId_witness :
  (0 < 2 <= INT_MAX)%Z /\ (0 <= 7)%Z /\
  exists s0 s1 s2 ctx,
    ClientCallManager_new idle_loop "" 2 (-1) 7 = Built s0 /\
    SetClusterId "cluster-A" s0 = Returned tt s1 /\
    CreateCall "request" (Some 5) "Echo" (-1) (Some 10) 1000 s1
      = Returned tt s2 /\
    sent_contexts (trace s2) = [ctx] /\
    metadata ctx = [] /\ header kClusterIdKey ctx = None.
Proof.
  assert (HP : (0 < 2 <= INT_MAX)%Z) by (rewrite INT_MAX_eq; lia).
  assert (Hr : (0 <= 7)%Z) by lia.
  split; [exact HP|]. split; [exact Hr|].
  exact (C2_no_header_after_SetClusterId idle_loop "" 2 (-1) 7 "cluster-A"
           "request" (Some 5) "Echo" (-1) (Some 10) 1000 HP Hr).
Defined.

(** C3, at three queues and [rand() = 8]: the queues are 2, 0, 1. *)
Lemma C3_round_robin_from_random_start_witness :
  (0 < 3 <= INT_MAX)%Z /\ (0 <= 8)%Z /\
  forallb is_CreateCall example_calls = true /\
  exists s0 s',
    ClientCallManager_new idle_loop "" 3 (-1) 8 = Built s0 /\
    steps example_calls s0 = Returned tt s' /\
    rr_index_ s' = 5%Z /\
    sent_to (trace s') = [2; 0; 1].
Proof.
  assert (HP : (0 < 3 <= INT_MAX)%Z) by (rewrite INT_MAX_eq; lia).
  assert (Hr : (0 <= 8)%Z) by lia.
  assert (Hall : forallb is_CreateCall example_calls = true)
    by (vm_compute; reflexivity).
  split; [exact HP|]. split; [exact Hr|]. split; [exact Hall|].
  destruct (C3_round_robin_from_random_start (Ext := example_externals)
              idle_loop "" 3 (-1) 8 example_calls HP Hr Hall)
    as (s0 & s' & Hnew & Hrun & Hrr & Hsent & _).
  exists s0, s'. split; [exact Hnew|]. split; [exact Hrun|].
  split; [exact Hrr|]. exact Hsent.
Defined.

(** C3 with the start at queue 0 fails: with three queues and
    [rand() = 8] the first three calls go to the queues 2, 0, 1; the first
    call is not on queue 0, and the order is neither 0, 1, 2 nor
    1, 2, 0. *)
Lemma C3_first_call_not_on_queue_0 :
  ClientCallManager_new idle_loop "" 3 (-1) 8 = Built example_manager_3 /\
  returns (steps example_calls example_manager_3) = true /\
  sent_to (trace (final_state (steps example_calls example_manager_3)))
    = [2; 0; 1] /\
  sent_to (trace (final_state (steps example_calls example_manager_3)))
    <> map (fun i => Z.to_nat (Z.of_nat i mod 3))
           (seq 0 (length example_calls)) /\
  sent_to (trace (final_state (steps example_calls example_manager_3)))
    <> map (fun i => Z.to_nat (Z.of_nat i mod 3))
           (seq 1 (length example_calls)).
Proof.
  split; [vm_compute; reflexivity|]. split; [vm_compute; reflexivity|].
  split; [vm_compute; reflexivity|].
  split; intros H; vm_compute in H; discriminate H.
Qed.

(** C4, at the completed call with [ok]: it is posted. *)
Lemma C4_posted_iff_ok_and_running_witness :
  cq_index_ok example_completed 1 /\
  heap example_completed !! 1 = Some example_call /\
  stats_handle_ example_call = Some 10 /\
  exists s',
    poll_iteration 1 2000 (GOT 1 true) example_completed
      = Returned Continue s' /\
    handlers_ (main_service_ s') = [(1, Some 10)] /\
    is_Some (heap s' !! 1).
Proof.
  assert (Hidx : cq_index_ok example_completed 1)
    by (split; [lia|vm_compute; lia]).
  assert (Hc : heap example_completed !! 1 = Some example_call)
    by (vm_compute; reflexivity).
  assert (Hh : stats_handle_ example_call = Some 10)
    by (vm_compute; reflexivity).
  split; [exact Hidx|]. split; [exact Hc|]. split; [exact Hh|].
  destruct (C4_posted_iff_ok_and_running (Ext := example_externals)
              example_completed 1 2000 1 true example_call 10 Hidx Hc Hh)
    as (s' & Hrun & _ & Hpost & Hyes & _).
  exists s'. split; [exact Hrun|].
  split; [apply Hpost; vm_compute; reflexivity|].
  apply Hyes. vm_compute. reflexivity.
Defined.

(** C5, at the completed call: callback 5 gets the converted status. *)
Lemma C5_callback_gets_converted_status_witness :
  cq_index_ok example_completed 1 /\
  heap example_completed !! 1 = Some example_call /\
  stats_handle_ example_call = Some 10 /\
  callback_ example_call = Some 5 /\
  stopped_ (main_service_ example_completed) = false /\
  shutdown_ example_completed = false /\
  exists s1 s2,
    poll_iteration 1 2000 (GOT 1 true) example_completed
      = Returned Continue s1 /\
    posted_handler 1 s1 = Returned tt s2 /\
    callbacks_invoked (trace s2) = [(5, StatusRpcError 4, 42%Z)].
Proof.
  assert (Hidx : cq_index_ok example_completed 1)
    by (split; [lia|vm_compute; lia]).
  assert (Hc : heap example_completed !! 1 = Some example_call)
    by (vm_compute; reflexivity).
  assert (Hh : stats_handle_ example_call = Some 10)
    by (vm_compute; reflexivity).
  assert (Hcb : callback_ example_call = Some 5)
    by (vm_compute; reflexivity).
  assert (Hrun : stopped_ (main_service_ example_completed) = false)
    by (vm_compute; reflexivity).
  assert (Hshut : shutdown_ example_completed = false)
    by (vm_compute; reflexivity).
  repeat (split; [assumption|]).
  destruct (C5_callback_gets_converted_status (Ext := example_externals)
              example_completed 1 2000 1 example_call 10 5
              Hidx Hc Hh Hcb Hrun Hshut)
    as (s1 & s2 & Hpoll & _ & _ & Hdel & _ & Hcalls).
  exists s1, s2. split; [exact Hpoll|]. split; [exact Hdel|]. exact Hcalls.
Defined.

(** A timeout of [INT64_MAX] milliseconds overflows the conversion to
    nanoseconds: the deadline is one millisecond before the clock. *)
Example deadline_after_overflow :
  deadline_after 1000000000 INT64_MAX = 999000000%Z.
Proof. vm_compute. reflexivity. Qed.

(** C6, at a call with a timeout of 500 ms created at time 1000: the
    deadline is 500 000 000 ns later. *)
Lemma C6_effective_timeout_and_deadline_witness :
  manager_ok example_manager /\
  exists s' ctx,
    CreateCall "request" (Some 5) "Echo" 500 (Some 10) 1000 example_manager
      = Returned tt s' /\
    sent_contexts (trace s') = [ctx] /\
    deadline ctx = Some 500001000%Z.
Proof.
  split; [exact example_manager_ok|].
  destruct (C6_effective_timeout_and_deadline (Ext := example_externals)
              example_manager "request" (Some 5) "Echo" 500 (Some 10) 1000
              example_manager_ok)
    as (s' & ctx & Hrun & Hsent & _ & _ & _ & Hdl).
  exists s', ctx. split; [exact Hrun|]. split; [exact Hsent|].
  apply Hdl; [discriminate|vm_compute; split; discriminate
             |vm_compute; split; discriminate].
Defined.

(** C7, at a timeout after the destructor has set [shutdown_]. *)
Lemma C7_poller_waits_250ms_and_exits_witness :
  cq_index_ok example_destroyed 0 /\
  (next_status TIMED_OUT = GOT_EVENT ->
   exists c h, heap example_destroyed !! got_tag TIMED_OUT = Some c /\
               stats_handle_ c = Some h) /\
  exists s',
    poll_iteration 0 5000 TIMED_OUT example_destroyed = Returned Break s' /\
    last (trace s') = Some (EvAsyncNext 0 5250) /\
    poll_loop 0 [(5000, TIMED_OUT); (5250, TIMED_OUT)]%Z example_destroyed
      = Returned Exited s'.
Proof.
  assert (Hidx : cq_index_ok example_destroyed 0)
    by (split; [lia|vm_compute; lia]).
  assert (Hev : next_status TIMED_OUT = GOT_EVENT ->
                exists c h,
                  heap example_destroyed !! got_tag TIMED_OUT = Some c /\
                  stats_handle_ c = Some h) by discriminate.
  split; [exact Hidx|]. split; [exact Hev|].
  destruct (C7_poller_waits_250ms_and_exits (Ext := example_externals)
              example_destroyed 0 5000 TIMED_OUT [(5250, TIMED_OUT)]%Z
              Hidx Hev)
    as (ctl & s' & tr & Hrun & Htr & Hexit & _ & Hloop).
  assert (Hctl : ctl = Break)
    by (apply Hexit; right; split; vm_compute; reflexivity).
  subst ctl. exists s'. split; [exact Hrun|]. split; [|exact Hloop].
  vm_compute in Hrun. injection Hrun as <-. reflexivity.
Defined.


(** C9, at the posted call without callback. *)
Lemma C9_null_callback_is_skipped_witness :
  heap example_posted_null !! 1 = Some example_null_call /\
  callback_ example_null_call = None /\
  stopped_ (main_service_ example_posted_null) = false /\
  handlers_ (main_service_ example_posted_null) = [(1, Some 10)] /\
  exists s',
    run_one example_posted_null = Returned true s' /\
    callbacks_invoked (trace s') = [] /\
    heap s' !! 1 = None /\
    use_count example_posted_null !! 10 = Some 2 /\
    use_count s' !! 10 = Some 0.
Proof.
  assert (Hc : heap example_posted_null !! 1 = Some example_null_call)
    by (vm_compute; reflexivity).
  assert (Hcb : callback_ example_null_call = None)
    by (vm_compute; reflexivity).
  assert (Hrun : stopped_ (main_service_ example_posted_null) = false)
    by (vm_compute; reflexivity).
  assert (Hq : handlers_ (main_service_ example_posted_null) = [(1, Some 10)])
    by (vm_compute; reflexivity).
  repeat (split; [assumption|]).
  destruct (C9_null_callback_is_skipped (Ext := example_externals)
              example_posted_null 1 example_null_call (Some 10) []
              Hc Hcb Hrun Hq)
    as (s' & Hone & _ & Hcalls & Hheap & Huc).
  exists s'. split; [exact Hone|]. split; [exact Hcalls|].
  rewrite Hheap, Huc. repeat split; vm_compute; reflexivity.
Defined.

(** C10, at the completed call of the example. *)
Lemma C10_stats_handle_check_holds_witness :
  (0 < 2 <= INT_MAX)%Z /\ (0 <= 7)%Z /\
  ClientCallManager_new idle_loop "cluster-A" 2 (-1) 7
    = Built example_manager /\
  existsb null_handle_step example_completion = false /\
  steps example_completion example_manager = Returned tt example_completed /\
  (0 <= 1 < 2)%Z /\
  next_status (GOT 1 false) = GOT_EVENT /\
  heap example_completed !! got_tag (GOT 1 false) = Some example_call /\
  stats_handle_ example_call <> None /\
  exists s',
    poll_iteration 1 2000 (GOT 1 false) example_completed
      = Returned Continue s'.
Proof.
  assert (HP : (0 < 2 <= INT_MAX)%Z) by (rewrite INT_MAX_eq; lia).
  assert (Hr : (0 <= 7)%Z) by lia.
  assert (Hnull : existsb null_handle_step example_completion = false)
    by (vm_compute; reflexivity).
  assert (Hrun : steps example_completion example_manager
                 = Returned tt example_completed)
    by (vm_compute; reflexivity).
  assert (Hidx : (0 <= 1 < 2)%Z) by lia.
  assert (Hst : next_status (GOT 1 false) = GOT_EVENT)
    by (vm_compute; reflexivity).
  assert (Hc : heap example_completed !! got_tag (GOT 1 false)
               = Some example_call)
    by (vm_compute; reflexivity).
  split; [exact HP|]. split; [exact Hr|].
  split; [exact example_manager_built|].
  repeat (split; [assumption|]).
  exact (C10_stats_handle_check_holds idle_loop "cluster-A" 2 (-1) 7
           example_completion example_manager example_completed 1 2000
           (GOT 1 false) example_call HP Hr example_manager_built Hnull Hrun
           Hidx Hst Hc).
Defined.

End Witnesses.

(** * The rest of the header *)

(** ** The constructor and the destructor *)

Section Lifetime.
Context `{Ext : Externals}.

Lemma fold_start_polling_thread_cqs (l : list Z) (s : State) :
  cqs_ (fold_left start_polling_thread l s)
    = cqs_ s ++ replicate (length l) {| cq_shutdown := false |}.
Proof.
  revert s. induction l as [|i l IH]; intros s; simpl.
  - symmetry. apply app_nil_r.
  - rewrite IH. simpl. rewrite <- app_assoc. reflexivity.
Qed.

(** X1: for a positive number of threads the constructor builds a manager
    with that many completion queues, none shut down, and one polling
    thread per queue, started with the indices 0, 1, ... in this order; the
    counter starts below the number of threads, whatever [rand()]
    returns; no call is allocated and nothing has happened yet. *)
Theorem ClientCallManager_new_structure
    main_service cluster_id P call_timeout_ms r :
  (0 < P <= INT_MAX)%Z -> (0 <= r)%Z ->
  exists s,
    ClientCallManager_new main_service cluster_id P call_timeout_ms r
      = Built s /\
    cqs_ s = replicate (Z.to_nat P) {| cq_shutdown := false |} /\
    polling_threads_ s = seqZ 0 P /\
    (0 <= rr_index_ s < P)%Z /\
    (forall index, cq_index_ok s index <-> (0 <= index < P)%Z) /\
    shutdown_ s = false /\ heap s = ∅ /\ trace s = [].
Proof.
  intros HP Hr.
  destruct (ClientCallManager_new_ok main_service cluster_id P call_timeout_ms
              r HP Hr)
    as (s & Hnew & Hok & _ & Hrr & Hn & _ & Hshut & _ & Hthreads & Hheap & Htr).
  exists s. split; [exact Hnew|].
  assert (Hcqs : cqs_ s = replicate (Z.to_nat P) {| cq_shutdown := false |}).
  { unfold ClientCallManager_new in Hnew.
    destruct (Z.eqb_spec P 0) as [?|_]; [lia|].
    destruct (Z.ltb_spec P 0) as [?|_]; [lia|].
    injection Hnew as <-.
    rewrite fold_start_polling_thread_cqs, length_seqZ. reflexivity. }
  split; [exact Hcqs|]. split; [exact Hthreads|].
  split; [rewrite Hrr; apply Z.mod_pos_bound; lia|].
  split; [|auto].
  intros index. unfold cq_index_ok. rewrite Hcqs, length_replicate. lia.
Qed.

(** What the first loop of the destructor does to the queues
    [a], ..., [a + n - 1]. *)
Lemma shutdown_cqs_lookup (n a : nat) (q : list CompletionQueue) (j : nat) :
  fold_left (fun q i => <[i := shut_down]> q) (seq a n) q !! j
    = if decide (a <= j < a + n)%nat
      then (fun _ => shut_down) <$> q !! j
      else q !! j.
Proof.
  revert a q. induction n as [|n IH]; intros a q; simpl.
  - destruct (decide _) as [?|_]; [lia|reflexivity].
  - rewrite IH. rewrite list_lookup_insert.
    destruct (decide (S a <= j < S a + n)%nat) as [H1|H1];
      destruct (decide (a <= j < a + S n)%nat) as [H2|H2]; try lia;
      destruct (decide (a = j /\ a < length q)%nat) as [[Heq Hlt]|H3];
      try lia; try reflexivity.
    + subst j. destruct (lookup_lt_is_Some_2 q a Hlt) as [x ->]. reflexivity.
    + assert (j = a) by lia. subst j.
      assert (Hge : (length q <= a)%nat) by lia.
      rewrite (lookup_ge_None_2 q a Hge). reflexivity.
Qed.

Lemma shutdown_all_cqs (q : list CompletionQueue) :
  fold_left (fun q i => <[i := shut_down]> q) (seq 0 (length q)) q
    = replicate (length q) shut_down.
Proof.
  apply list_eq. intros j. rewrite shutdown_cqs_lookup.
  destruct (decide (j < length q)%nat) as [Hlt|Hge].
  - rewrite lookup_replicate_2 by exact Hlt.
    destruct (lookup_lt_is_Some_2 q j Hlt) as [x ->].
    destruct (decide _) as [_|?]; [reflexivity|lia].
  - destruct (decide _) as [?|_]; [lia|].
    rewrite (lookup_ge_None_2 q j) by lia.
    symmetry. apply lookup_replicate_None. lia.
Qed.

Lemma shutdown_cq_loop (l : list nat) (s : State) :
  for_each l shutdown_cq s =
    Returned tt
      (set_trace (trace s ++ map EvCqShutdown l)
         (set_cqs_ (fold_left (fun q i => <[i := shut_down]> q) l (cqs_ s))
            s)).
Proof.
  revert s. induction l as [|i l IH]; intros s; simpl.
  - rewrite app_nil_r. destruct s; reflexivity.
  - unfold bind at 1. unfold shutdown_cq at 1.
    unfold bind, get, modify, emit. simpl. rewrite IH. simpl.
    rewrite <- app_assoc. reflexivity.
Qed.

Lemma exited_app (t1 t2 : list Event) index :
  exited (t1 ++ t2) index = exited t1 index || exited t2 index.
Proof. apply existsb_app. Qed.

Lemma exited_shutdowns (l : list nat) index :
  exited (map EvCqShutdown l) index = false.
Proof. induction l as [|i l IH]; simpl; auto. Qed.

Lemma exited_joins (l : list Z) index :
  exited (map EvJoin l) index = false.
Proof. induction l as [|i l IH]; simpl; auto. Qed.

(** How far the joins get: through the threads that have returned, in
    the order in which they were started, up to the first one that has
    not. *)
Lemma join_all_spec (threads : list Z) (s : State) :
  exists r joined,
    join_all threads s
      = Returned r (set_trace (trace s ++ map EvJoin joined) s) /\
    Forall (fun t => thread_finished s t = true) joined /\
    match r with
    | Destroyed => joined = threads
    | Joining t =>
        thread_finished s t = false /\
        exists rest, threads = joined ++ t :: rest
    end.
Proof.
  revert s. induction threads as [|t rest IH]; intros s; simpl.
  - exists Destroyed, []. simpl. rewrite app_nil_r.
    split; [destruct s; reflexivity|]. split; [constructor|reflexivity].
  - unfold bind at 1, get.
    destruct (thread_finished s t) eqn:Ht.
    + unfold bind at 1, emit at 1, modify.
      destruct (IH (set_trace (trace s ++ [EvJoin t]) s))
        as (r & joined & Hrun & Hall & Hr).
      assert (Hsame : forall i,
                thread_finished (set_trace (trace s ++ [EvJoin t]) s) i
                = thread_finished s i).
      { intros i. unfold thread_finished. simpl. rewrite exited_app. simpl.
        apply orb_false_r. }
      exists r, (t :: joined). rewrite Hrun. simpl.
      rewrite <- app_assoc. split; [reflexivity|]. split.
      * constructor; [exact Ht|].
        eapply Forall_impl; [exact Hall|]. intros i Hi.
        rewrite <- Hsame. exact Hi.
      * destruct r as [|t']; [congruence|].
        destruct Hr as [Ht' [rest' ->]]. rewrite Hsame in Ht'.
        split; [exact Ht'|]. exists rest'. reflexivity.
    + exists (Joining t), []. simpl. rewrite app_nil_r.
      split; [destruct s; reflexivity|]. split; [constructor|].
      split; [exact Ht|]. exists rest. reflexivity.
Qed.

(** X2: the destructor sets [shutdown_], shuts every completion queue
    down, queue 0 first, and then joins the polling threads in the order
    in which they were started.  It gets to its end only if every polling
    thread has returned from its function; otherwise it stands in the
    [join] of the first thread that has not, with the earlier ones joined.
    It deletes no call, posts nothing and takes nothing off the event
    loop. *)
Theorem ClientCallManager_delete_spec s :
  exists r s' joined,
    ClientCallManager_delete s = Returned r s' /\
    shutdown_ s' = true /\
    cqs_ s' = replicate (length (cqs_ s)) {| cq_shutdown := true |} /\
    trace s' =
      trace s ++ map EvCqShutdown (seq 0 (length (cqs_ s)))
              ++ map EvJoin joined /\
    Forall (fun t => thread_finished s t = true) joined /\
    match r with
    | Destroyed => joined = polling_threads_ s
    | Joining t =>
        thread_finished s t = false /\
        exists rest, polling_threads_ s = joined ++ t :: rest
    end /\
    (r = Destroyed <->
     Forall (fun t => thread_finished s t = true) (polling_threads_ s)) /\
    heap s' = heap s /\ main_service_ s' = main_service_ s /\
    use_count s' = use_count s /\ cluster_id_ s' = cluster_id_ s.
Proof.
  unfold ClientCallManager_delete.
  unfold bind at 1, modify at 1. unfold bind at 1, get at 1.
  unfold bind at 1. simpl.
  change (fun i : nat =>
            do s0 <- get;
            do _ <- modify (set_cqs_ (<[i := {| cq_shutdown := true |}]>
                                        (cqs_ s0)));
            emit (EvCqShutdown i)) with shutdown_cq.
  rewrite shutdown_cq_loop. cbv beta iota.
  match goal with
  | |- context [join_all ?l ?st] =>
      destruct (join_all_spec l st) as (r & joined & Hrun & Hall & Hr);
      set (s1 := st) in *
  end.
  assert (Hsame : forall i, thread_finished s1 i = thread_finished s i).
  { intros i. unfold thread_finished. subst s1. simpl.
    rewrite exited_app, exited_shutdowns. apply orb_false_r. }
  assert (Hall' : Forall (fun t => thread_finished s t = true) joined).
  { eapply Forall_impl; [exact Hall|]. intros i Hi. rewrite <- Hsame.
    exact Hi. }
  exists r. eexists. exists joined. rewrite Hrun.
  split; [reflexivity|]. subst s1. simpl.
  rewrite shutdown_all_cqs, <- app_assoc.
  split; [reflexivity|]. split; [reflexivity|]. split; [reflexivity|].
  split; [exact Hall'|].
  destruct r as [|t]; simpl in Hr.
  - subst joined. split; [reflexivity|]. split; [tauto|auto].
  - destruct Hr as [Ht [rest Hthreads]]. rewrite Hsame in Ht.
    split; [split; [exact Ht|exists rest; exact Hthreads]|].
    split; [|auto]. split; [discriminate|].
    intros Hfin. rewrite Hthreads in Hfin.
    apply Forall_app in Hfin as [_ Hfin].
    apply Forall_cons in Hfin as [Hfin _]. congruence.
Qed.

End Lifetime.

(** ** Polling threads while the manager is destroyed *)

Section AfterDestruction.
Context `{Ext : Externals}.

(** While a polling thread of the manager has not returned, the destructor
    stands in a [join], with [shutdown_] set, the queues as many as
    before, and no call, handler or event other than the shutdowns of the
    queues and the joins of threads that have returned. *)
Lemma ClientCallManager_delete_waits s index :
  index ∈ polling_threads_ s -> thread_finished s index = false ->
  exists t joined rest s1,
    ClientCallManager_delete s = Returned (Joining t) s1 /\
    polling_threads_ s = joined ++ t :: rest /\
    shutdown_ s1 = true /\
    length (cqs_ s1) = length (cqs_ s) /\
    trace s1 =
      trace s ++ map EvCqShutdown (seq 0 (length (cqs_ s)))
              ++ map EvJoin joined /\
    heap s1 = heap s /\ main_service_ s1 = main_service_ s.
Proof.
  intros Hin Hrunning.
  destruct (ClientCallManager_delete_spec s)
    as (r & s1 & joined & Hdel & Hshut & Hcqs & Htr & Hall & Hr & _ & Hheap
        & Hms & _).
  destruct r as [|t].
  - subst joined. exfalso.
    rewrite Forall_forall in Hall. specialize (Hall index Hin). congruence.
  - destruct Hr as [_ [rest Hthreads]].
    exists t, joined, rest, s1. split; [exact Hdel|].
    split; [exact Hthreads|]. split; [exact Hshut|].
    split; [rewrite Hcqs; apply length_replicate|]. auto.
Qed.

Lemma observed_after_shutdown (tr : list Event) (l : list nat) (j : list Z) :
  posted (tr ++ map EvCqShutdown l ++ map EvJoin j) = posted tr /\
  callbacks_invoked (tr ++ map EvCqShutdown l ++ map EvJoin j)
    = callbacks_invoked tr.
Proof.
  assert (Hq : posted (map EvCqShutdown l) = []
               /\ callbacks_invoked (map EvCqShutdown l) = [])
    by (induction l as [|i l [IH1 IH2]]; simpl; auto).
  assert (Hj : posted (map EvJoin j) = []
               /\ callbacks_invoked (map EvJoin j) = [])
    by (induction j as [|i j [IH1 IH2]]; simpl; auto).
  unfold posted at 1 2. rewrite !omap_app, !callbacks_invoked_app.
  fold (posted (map EvCqShutdown l)). fold (posted (map EvJoin j)).
  fold (posted tr).
  rewrite (proj1 Hq), (proj2 Hq), (proj1 Hj), (proj2 Hj), !app_nil_r. auto.
Qed.

(** X3: when the destructor runs while a polling thread is still in its
    loop, the destructor stands in a [join] with [shutdown_] set.  The
    polling thread then leaves its loop at the next return of [AsyncNext]
    that brings no event, a [TIMEOUT] as well as a [SHUTDOWN]: it waits
    once more, for at most 250 ms, and returns from its function.  If the
    other threads that the destructor still has to join have returned
    too, the joins go through and the destructor returns. *)
Theorem poller_exits_after_destructor
    s index now next (rest : list (Z * AsyncNextResult)) :
  cq_index_ok s index ->
  index ∈ polling_threads_ s -> thread_finished s index = false ->
  next_status next <> GOT_EVENT ->
  exists t joined later s1 s2,
    ClientCallManager_delete s = Returned (Joining t) s1 /\
    polling_threads_ s = joined ++ t :: later /\
    shutdown_ s1 = true /\
    poll_to_return index ((now, next) :: rest) s1 = Returned Exited s2 /\
    trace s2 =
      trace s1 ++ [EvAsyncNext index (now + 250); EvThreadExit index] /\
    thread_finished s2 index = true /\
    (Forall (fun t' => thread_finished s2 t' = true) (t :: later) ->
     join_all (t :: later) s2 =
       Returned Destroyed
         (set_trace (trace s2 ++ map EvJoin (t :: later)) s2)).
Proof.
  intros Hidx Hin Hrunning Hst.
  destruct (ClientCallManager_delete_waits s index Hin Hrunning)
    as (t & joined & later & s1 & Hdel & Hthreads & Hshut & Hlen & _).
  assert (Hidx1 : cq_index_ok s1 index)
    by (unfold cq_index_ok in *; rewrite Hlen; exact Hidx).
  exists t, joined, later, s1. eexists.
  split; [exact Hdel|]. split; [exact Hthreads|]. split; [exact Hshut|].
  split.
  { unfold poll_to_return. unfold bind at 1. simpl. unfold bind at 1.
    rewrite (poll_iteration_no_event s1 index now next Hidx1 Hst), Hshut.
    rewrite orb_true_r. unfold bind, emit, modify, ret. simpl.
    reflexivity. }
  split; [simpl; rewrite <- app_assoc; reflexivity|].
  split.
  { unfold thread_finished. simpl. rewrite !exited_app. simpl.
    rewrite Z.eqb_refl, !orb_true_r. reflexivity. }
  intros Hfin.
  match goal with
  | |- join_all ?l ?st = _ =>
      destruct (join_all_spec l st) as (r & joined' & Hrun & _ & Hr)
  end.
  destruct r as [|t'].
  - subst joined'. exact Hrun.
  - exfalso. destruct Hr as [Ht' [rest' Heq]].
    rewrite Heq in Hfin. apply Forall_app in Hfin as [_ Hfin].
    apply Forall_cons in Hfin as [Hfin _]. congruence.
Qed.

(** X4: when the destructor runs while a polling thread is still in its
    loop, a completion that this thread then takes off its queue is
    dropped, whether or not it is [ok] and whether or not the event loop
    runs: the converted status is written under the mutex of the call as
    for any completion, and then the call is deleted; nothing is posted
    and no callback is invoked. *)
Theorem completion_dropped_after_destructor
    s index now tag (ok0 : bool) c h :
  cq_index_ok s index ->
  index ∈ polling_threads_ s -> thread_finished s index = false ->
  heap s !! tag = Some c -> stats_handle_ c = Some h ->
  let next := {| next_status := GOT_EVENT; got_tag := tag; ok := ok0 |} in
  exists t s1 s2,
    ClientCallManager_delete s = Returned (Joining t) s1 /\
    poll_iteration index now next s1 = Returned Continue s2 /\
    trace s2 =
      trace s1
      ++ [EvAsyncNext index (now + 250); EvMutexLock tag;
          EvWriteReturnStatus tag (GrpcStatusToRayStatus (status_ c));
          EvMutexUnlock tag; EvDelete tag] /\
    heap s2 = delete tag (heap s) /\
    main_service_ s2 = main_service_ s /\
    posted (trace s2) = posted (trace s) /\
    callbacks_invoked (trace s2) = callbacks_invoked (trace s).
Proof.
  intros Hidx Hin Hrunning Hc Hh next.
  destruct (ClientCallManager_delete_waits s index Hin Hrunning)
    as (t & joined & later & s1 & Hdel & _ & Hshut & Hlen & Htr1 & Hheap1
        & Hms1).
  assert (Hidx1 : cq_index_ok s1 index)
    by (unfold cq_index_ok in *; rewrite Hlen; exact Hidx).
  assert (Hc1 : heap s1 !! got_tag next = Some c)
    by (rewrite Hheap1; exact Hc).
  destruct (poll_iteration_event s1 index now next c h Hidx1 eq_refl Hc1 Hh)
    as (s2 & Hpoll & Hcase).
  rewrite Hshut, andb_false_r in Hcase.
  destruct Hcase as (Htr2 & Hheap2 & Hms2 & _).
  exists t, s1, s2. split; [exact Hdel|]. split; [exact Hpoll|].
  split; [exact Htr2|].
  split; [rewrite Hheap2, Hheap1; reflexivity|].
  split; [rewrite Hms2, Hms1; reflexivity|].
  destruct (observed_after_shutdown (trace s)
              (seq 0 (length (cqs_ s))) joined) as [Hp Hcb].
  rewrite Htr2. unfold posted at 1. rewrite omap_app, callbacks_invoked_app.
  fold (posted (trace s1)). rewrite Htr1, Hp, Hcb. simpl.
  rewrite !app_nil_r. auto.
Qed.

End AfterDestruction.

(** ** The status of a call *)

Section CallStatus.
Context `{Ext : Externals}.

Lemma GetStatus_spec s tag c :
  heap s !! tag = Some c ->
  GetStatus tag s =
    Returned (return_status_ c)
      (set_trace
         (trace s ++ [EvMutexLock tag;
                      EvReadReturnStatus tag (return_status_ c);
                      EvMutexUnlock tag]) s).
Proof.
  intros Hc. unfold GetStatus, deref, bind, emit, modify, ret.
  repeat (simpl; rewrite ?Hc). rewrite <- !app_assoc. reflexivity.
Qed.

Lemma SetReturnStatus_spec s tag c :
  heap s !! tag = Some c ->
  let converted := GrpcStatusToRayStatus (status_ c) in
  SetReturnStatus tag s =
    Returned tt
      (set_trace
         (trace s ++ [EvMutexLock tag; EvWriteReturnStatus tag converted;
                      EvMutexUnlock tag])
         (set_heap (<[tag := set_return_status_ converted c]> (heap s)) s)).
Proof.
  intros Hc converted.
  unfold SetReturnStatus, deref, store, bind, emit, modify, ret.
  repeat (simpl; rewrite ?Hc). rewrite <- !app_assoc. reflexivity.
Qed.

(** X5: [GetStatus] after [SetReturnStatus] returns the conversion of the
    status that the transport left in the call.  Both take and release the
    mutex of the call around their access, the status is the only field of
    the call that changes, and every other call is as it was. *)
Theorem GetStatus_after_SetReturnStatus s tag c :
  heap s !! tag = Some c ->
  let converted := GrpcStatusToRayStatus (status_ c) in
  exists s1 s2,
    SetReturnStatus tag s = Returned tt s1 /\
    GetStatus tag s1 = Returned converted s2 /\
    heap s2 = <[tag := set_return_status_ converted c]> (heap s) /\
    (forall p, p <> tag -> heap s2 !! p = heap s !! p) /\
    trace s2 =
      trace s
      ++ [EvMutexLock tag; EvWriteReturnStatus tag converted;
          EvMutexUnlock tag;
          EvMutexLock tag; EvReadReturnStatus tag converted;
          EvMutexUnlock tag].
Proof.
  intros Hc converted.
  pose proof (SetReturnStatus_spec s tag c Hc) as Hset. simpl in Hset.
  fold converted in Hset.
  eexists _, _. split; [exact Hset|].
  assert (Hc1 : heap (set_trace
                        (trace s ++ [EvMutexLock tag;
                                     EvWriteReturnStatus tag converted;
                                     EvMutexUnlock tag])
                        (set_heap
                           (<[tag := set_return_status_ converted c]> (heap s))
                           s)) !! tag
                = Some (set_return_status_ converted c))
    by (simpl; apply lookup_insert_eq).
  split; [exact (GetStatus_spec _ tag _ Hc1)|]. simpl.
  split; [reflexivity|].
  split; [intros p Hp; apply lookup_insert_ne; congruence|].
  rewrite <- app_assoc. reflexivity.
Qed.

(** Running [SetReturnStatus] a second time changes no call. *)
Lemma SetReturnStatus_twice s tag c :
  heap s !! tag = Some c ->
  exists s1 s2,
    SetReturnStatus tag s = Returned tt s1 /\
    SetReturnStatus tag s1 = Returned tt s2 /\
    heap s2 = heap s1.
Proof.
  intros Hc.
  pose proof (SetReturnStatus_spec s tag c Hc) as Hset. simpl in Hset.
  eexists _, _. split; [exact Hset|].
  match goal with
  | |- SetReturnStatus tag ?s1 = _ /\ _ =>
      assert (Hc1 : heap s1 !! tag
                    = Some (set_return_status_
                              (GrpcStatusToRayStatus (status_ c)) c))
        by (simpl; apply lookup_insert_eq);
      pose proof (SetReturnStatus_spec s1 tag _ Hc1) as Hset1
  end.
  simpl in Hset1. split; [exact Hset1|]. simpl.
  apply insert_insert_eq.
Qed.

(** X6: until a polling thread has run [SetReturnStatus], [GetStatus]
    returns the status that the constructor left in the call, a
    default-constructed [ray::Status], whatever outcome the transport has
    written into the call in the meantime. *)
Theorem GetStatus_before_SetReturnStatus
    s request callback call_name method_timeout_ms returned now
    (st : grpc_Status) (r : Reply) :
  manager_ok s ->
  let tag := next_ptr s in
  exists s1 s2 s3,
    CreateCall request callback call_name method_timeout_ms returned now s
      = Returned tt s1 /\
    transport_complete tag st r s1 = Returned tt s2 /\
    status_ <$> heap s2 !! tag = Some st /\
    GetStatus tag s2 = Returned ray_Status_default s3.
Proof.
  intros Hok tag.
  destruct (CreateCall_spec s request callback call_name method_timeout_ms
              returned now Hok) as (s1 & Hrun & _ & Hheap & _).
  simpl in Hheap. fold tag in Hheap.
  exists s1. unfold transport_complete, deref, store, bind, modify.
  rewrite Hheap, lookup_insert_eq. simpl.
  eexists _, _. split; [exact Hrun|]. split; [reflexivity|]. simpl.
  rewrite lookup_insert_eq. split; [reflexivity|].
  erewrite GetStatus_spec by (simpl; apply lookup_insert_eq).
  reflexivity.
Qed.

End CallStatus.

(** ** What a polling thread and [CreateCall] leave alone *)

Section Untouched.
Context `{Ext : Externals}.

Lemma keeps_poll_loop {X} (f : State -> X) index
    (inputs : list (Z * AsyncNextResult)) :
  (forall now next, keeps f (poll_iteration index now next)) ->
  keeps f (poll_loop index inputs).
Proof.
  intros Hturn. induction inputs as [|[now next] rest IH]; simpl.
  - apply keeps_ret.
  - apply keeps_bind; [apply Hturn|]. intros [].
    + apply keeps_ret.
    + exact IH.
Qed.

Lemma keeps_PollEventsFromCompletionQueue {X} (f : State -> X) index inputs :
  (forall e s, f (set_trace (trace s ++ [EvSetThreadName e]) s) = f s) ->
  (forall i s, f (set_trace (trace s ++ [EvThreadExit i]) s) = f s) ->
  (forall now next, keeps f (poll_iteration index now next)) ->
  keeps f (PollEventsFromCompletionQueue index inputs).
Proof.
  intros Hname Hexit Hturn.
  unfold PollEventsFromCompletionQueue, poll_to_return.
  apply keeps_bind.
  - unfold emit. apply keeps_modify. intros s. apply Hname.
  - intros _. apply keeps_bind; [apply keeps_poll_loop, Hturn|].
    intros []; [|apply keeps_ret].
    apply keeps_bind; [|intros _; apply keeps_ret].
    unfold emit. apply keeps_modify. intros s. apply Hexit.
Qed.

Lemma poll_iteration_keeps_callbacks index now next :
  keeps (fun s => callbacks_invoked (trace s)) (poll_iteration index now next).
Proof. unfold callbacks_invoked. keeps_all. Qed.

Lemma poll_iteration_keeps_sent index now next :
  keeps (fun s => sent_contexts (trace s)) (poll_iteration index now next).
Proof. unfold sent_contexts. keeps_all. Qed.

Lemma poll_iteration_keeps_rr_index index now next :
  keeps rr_index_ (poll_iteration index now next).
Proof. keeps_all. Qed.

Lemma poll_iteration_keeps_stopped index now next :
  keeps (fun s => stopped_ (main_service_ s)) (poll_iteration index now next).
Proof. keeps_all. Qed.

(** X7: a polling thread, whatever [AsyncNext] brings it and however its
    run ends, invokes no user callback and sends no request; it writes
    neither the identity cell nor [shutdown_], the round-robin counter or
    the completion queues, and it does not stop the event loop.  It
    allocates no call and gives no call another stats handle. *)
Theorem polling_thread_leaves_alone index inputs s :
  let s' := final_state (PollEventsFromCompletionQueue index inputs s) in
  callbacks_invoked (trace s') = callbacks_invoked (trace s) /\
  sent_contexts (trace s') = sent_contexts (trace s) /\
  cluster_id_ s' = cluster_id_ s /\ shutdown_ s' = shutdown_ s /\
  rr_index_ s' = rr_index_ s /\ cqs_ s' = cqs_ s /\
  stopped_ (main_service_ s') = stopped_ (main_service_ s) /\
  same_handles s s'.
Proof.
  repeat split.
  - apply (keeps_PollEventsFromCompletionQueue
             (fun s => callbacks_invoked (trace s)));
      [| |apply poll_iteration_keeps_callbacks];
      intros e s0; simpl; rewrite callbacks_invoked_app; apply app_nil_r.
  - apply (keeps_PollEventsFromCompletionQueue
             (fun s => sent_contexts (trace s)));
      [| |apply poll_iteration_keeps_sent];
      intros e s0; simpl; rewrite sent_contexts_app; apply app_nil_r.
  - apply (keeps_PollEventsFromCompletionQueue cluster_id_);
      [reflexivity|reflexivity|apply poll_iteration_keeps_cluster_id].
  - apply (keeps_PollEventsFromCompletionQueue shutdown_);
      [reflexivity|reflexivity|apply poll_iteration_keeps_shutdown].
  - apply (keeps_PollEventsFromCompletionQueue rr_index_);
      [reflexivity|reflexivity|apply poll_iteration_keeps_rr_index].
  - apply (keeps_PollEventsFromCompletionQueue cqs_);
      [reflexivity|reflexivity|apply poll_iteration_keeps_cqs].
  - apply (keeps_PollEventsFromCompletionQueue
             (fun s => stopped_ (main_service_ s)));
      [reflexivity|reflexivity|apply poll_iteration_keeps_stopped].
  - unfold PollEventsFromCompletionQueue, poll_to_return.
    apply no_new_handles_bind.
    + apply no_new_handles_keeps. keeps_all.
    + intros _. apply no_new_handles_bind.
      * clear s. induction inputs as [|[now next] rest IH]; simpl.
        -- apply no_new_handles_keeps, keeps_ret.
        -- apply no_new_handles_bind; [apply poll_iteration_no_new_handles|].
           intros []; [apply no_new_handles_keeps, keeps_ret|exact IH].
      * intros []; apply no_new_handles_keeps; keeps_all.
Qed.

Lemma CreateCall_keeps_callbacks
    request callback call_name timeout returned now :
  keeps (fun s => callbacks_invoked (trace s))
    (CreateCall request callback call_name timeout returned now).
Proof. unfold callbacks_invoked. keeps_all. Qed.

Lemma CreateCall_keeps_main_service
    request callback call_name timeout returned now :
  keeps main_service_
    (CreateCall request callback call_name timeout returned now).
Proof. keeps_all. Qed.

Lemma CreateCall_keeps_shutdown
    request callback call_name timeout returned now :
  keeps shutdown_
    (CreateCall request callback call_name timeout returned now).
Proof. keeps_all. Qed.

Lemma CreateCall_keeps_cqs request callback call_name timeout returned now :
  keeps cqs_ (CreateCall request callback call_name timeout returned now).
Proof. keeps_all. Qed.

(** The calls that were there before [CreateCall] are as they were. *)
Lemma CreateCall_keeps_other_calls
    request callback call_name timeout returned now s p :
  p <> next_ptr s ->
  heap (final_state
          (CreateCall request callback call_name timeout returned now s)) !! p
    = heap s !! p.
Proof.
  intros Hp.
  unfold CreateCall, RecordStart, shared_ptr_copy, new, next_cq_index, cqs_at,
    deref, store, emit, modify, get, bind, ret, abort.
  simpl.
  repeat (case_match; simpl in *; simplify_eq);
    rewrite ?lookup_insert_ne by congruence; reflexivity.
Qed.

(** X8: [CreateCall] itself never invokes a callback, posts nothing to
    the event loop, and writes neither [shutdown_] nor the identity cell
    nor the completion queues; every call that was allocated before is as
    it was.  This holds also where [CreateCall] does not return. *)
Theorem CreateCall_leaves_alone
    request callback call_name method_timeout_ms returned now s :
  let s' :=
    final_state
      (CreateCall request callback call_name method_timeout_ms returned now s)
  in
  callbacks_invoked (trace s') = callbacks_invoked (trace s) /\
  main_service_ s' = main_service_ s /\
  shutdown_ s' = shutdown_ s /\ cluster_id_ s' = cluster_id_ s /\
  cqs_ s' = cqs_ s /\
  (forall p, p <> next_ptr s -> heap s' !! p = heap s !! p).
Proof.
  repeat split.
  - apply (CreateCall_keeps_callbacks request callback call_name
             method_timeout_ms returned now s).
  - apply CreateCall_keeps_main_service.
  - apply CreateCall_keeps_shutdown.
  - apply CreateCall_keeps_cluster_id.
  - apply CreateCall_keeps_cqs.
  - intros p Hp. apply CreateCall_keeps_other_calls, Hp.
Qed.

End Untouched.

(** ** Round robin over one turn of the queues *)

Section Fairness.
Context `{Ext : Externals}.

Lemma map_is_fmap {A B} (f : A -> B) (l : list A) : map f l = f <$> l.
Proof.
  induction l as [|x l IH]; simpl; [reflexivity|].
  rewrite IH. reflexivity.
Qed.

Lemma mod_shift_inj (a P x y : Z) :
  (0 < P)%Z -> (0 <= x < P)%Z -> (0 <= y < P)%Z ->
  ((a + x) mod P = (a + y) mod P)%Z -> x = y.
Proof.
  intros HP Hx Hy Heq.
  pose proof (Z.div_mod (a + x) P ltac:(lia)) as Dx.
  pose proof (Z.div_mod (a + y) P ltac:(lia)) as Dy.
  rewrite Heq in Dx.
  assert (Hk : (x - y = P * ((a + x) / P - (a + y) / P))%Z) by lia.
  remember ((a + x) / P - (a + y) / P)%Z as k.
  assert (k = 0)%Z by nia. subst k. lia.
Qed.

(** Within one turn and without wrap-around of the counter, two calls
    do not get the same queue. *)
Lemma nth_cq_inj (start P : Z) (x y : nat) :
  (0 < P)%Z -> (0 <= start)%Z -> (start + P <= UINT_MODULUS)%Z ->
  (Z.of_nat x < P)%Z -> (Z.of_nat y < P)%Z ->
  nth_cq start P x = nth_cq start P y -> x = y.
Proof.
  intros HP Hs Hwrap Hx Hy. unfold nth_cq.
  rewrite !(Z.mod_small (start + _) UINT_MODULUS) by lia.
  intros Heq. apply Z2Nat.inj in Heq;
    try (apply Z.mod_pos_bound; lia).
  apply Nat2Z.inj. eapply mod_shift_inj; [exact HP| | |exact Heq]; lia.
Qed.

Lemma nth_cq_lt (start P : Z) (k : nat) :
  (0 < P)%Z -> (nth_cq start P k < Z.to_nat P)%nat.
Proof.
  intros HP. unfold nth_cq.
  pose proof (Z.mod_pos_bound ((start + Z.of_nat k) mod UINT_MODULUS) P HP).
  lia.
Qed.

(** X9: as many calls in a row as there are completion queues go to
    pairwise different queues, so that each queue gets exactly one of
    them, provided the 32-bit counter does not wrap around meanwhile. *)
Theorem round_robin_turn (l : list Step) s :
  manager_ok s ->
  forallb is_CreateCall l = true ->
  length l = Z.to_nat (num_threads_ s) ->
  (rr_index_ s + num_threads_ s <= UINT_MODULUS)%Z ->
  exists s' queues,
    steps l s = Returned tt s' /\
    sent_to (trace s') = sent_to (trace s) ++ queues /\
    NoDup queues /\
    queues ≡ₚ seq 0 (Z.to_nat (num_threads_ s)).
Proof.
  intros Hok Hall Hlen Hwrap.
  destruct (CreateCalls_round_robin l Hall s Hok)
    as (s' & Hrun & _ & _ & _ & Hsent).
  destruct Hok as (HP & _ & Hrr).
  set (P := num_threads_ s) in *. set (start := rr_index_ s) in *.
  exists s', (map (nth_cq start P) (seq 0 (length l))).
  split; [exact Hrun|]. split; [exact Hsent|].
  rewrite Hlen, map_is_fmap.
  assert (Hnodup : NoDup (nth_cq start P <$> seq 0 (Z.to_nat P))).
  { apply NoDup_fmap_2_strong; [|apply NoDup_seq].
    intros x y Hx Hy. apply elem_of_seq in Hx, Hy.
    apply nth_cq_inj; lia. }
  split; [exact Hnodup|].
  apply submseteq_length_Permutation.
  - apply NoDup_submseteq; [exact Hnodup|].
    intros q Hq. apply list_elem_of_fmap in Hq as (k & -> & _).
    apply elem_of_seq. pose proof (nth_cq_lt start P k ltac:(lia)). lia.
  - rewrite length_fmap, !length_seq. lia.
Qed.

(** X10: the reading side of the identity header.  In a state whose
    identity cell holds an identity that is not nil, [CreateCall] sends
    the request with exactly one metadata entry, the key [kClusterIdKey]
    with the hexadecimal form of that identity, and leaves the cell as it
    is. *)
Theorem CreateCall_attaches_stored_identity
    s request callback call_name method_timeout_ms returned now :
  manager_ok s -> cluster_id_ s <> ClusterID_Nil ->
  exists s' ctx,
    CreateCall request callback call_name method_timeout_ms returned now s
      = Returned tt s' /\
    sent_contexts (trace s') = sent_contexts (trace s) ++ [ctx] /\
    metadata ctx = [(kClusterIdKey, ClusterID_Hex (cluster_id_ s))] /\
    header kClusterIdKey ctx = Some (ClusterID_Hex (cluster_id_ s)) /\
    cluster_id_ s' = cluster_id_ s.
Proof.
  intros Hok Hid.
  destruct (CreateCall_context s request callback call_name method_timeout_ms
              returned now Hok) as (s' & ctx & Hrun & Hsent & _ & _ & Hmeta).
  exists s', ctx. split; [exact Hrun|]. split; [exact Hsent|].
  unfold IsNil in Hmeta. rewrite bool_decide_eq_false_2 in Hmeta by exact Hid.
  split; [exact Hmeta|]. split.
  - unfold header. rewrite Hmeta. simpl.
    rewrite decide_True by reflexivity. reflexivity.
  - pose proof (CreateCall_keeps_cluster_id request callback call_name
                  method_timeout_ms returned now s) as Hkeep.
    rewrite Hrun in Hkeep. exact Hkeep.
Qed.

End Fairness.

(** ** Callbacks run only for posted handlers *)

Section Delivered.
Context `{Ext : Externals}.

Lemma posted_app (t1 t2 : list Event) :
  posted (t1 ++ t2) = posted t1 ++ posted t2.
Proof. apply omap_app. Qed.

Lemma delivery_ok_taken s :
  delivery_ok s <->
  (Z.of_nat (length (callbacks_invoked (trace s))) <= taken s)%Z.
Proof. unfold delivery_ok, taken. lia. Qed.

Lemma keeps_taken {A} (m : M A) :
  keeps (fun s => posted (trace s)) m ->
  keeps (fun s => handlers_ (main_service_ s)) m ->
  keeps taken m.
Proof.
  intros Hp Hh s. unfold taken. rewrite (Hp s), (Hh s). reflexivity.
Qed.

(** [post] adds one handler to the queue and one to those posted. *)
Lemma post_keeps_taken task stats_handle : keeps taken (post task stats_handle).
Proof.
  intros s. unfold post, bind, emit, modify, taken. simpl.
  rewrite posted_app, !length_app. simpl. lia.
Qed.

(** What runs after [m] and keeps [f] does not matter to [f]. *)
Lemma keeps_after {X A B} (f : State -> X) (m : M A) (k : A -> M B) s :
  (forall a, keeps f (k a)) ->
  f (final_state (bind m k s)) = f (final_state (m s)).
Proof.
  intros Hk. unfold bind. destruct (m s) as [a s1|d s1]; simpl; [|reflexivity].
  apply Hk.
Qed.

End Delivered.

Ltac taken_step :=
  lazymatch goal with
  | |- keeps taken (post _ _) => apply post_keeps_taken
  | |- keeps taken (bind _ _) => apply keeps_bind; [|intros ?]
  | |- keeps taken (if ?b then _ else _) => destruct b
  | |- keeps taken (match ?x with _ => _ end) => destruct x
  | |- keeps taken _ => apply keeps_taken; [unfold posted; keeps_all|keeps_all]
  end.

Section DeliveredOnce.
Context `{Ext : Externals}.

Lemma poll_iteration_keeps_taken index now next :
  keeps taken (poll_iteration index now next).
Proof. unfold poll_iteration. repeat taken_step. Qed.

Lemma posted_handler_dangling s call :
  heap s !! call = None ->
  final_state (posted_handler call s) = s.
Proof.
  intros Hc. unfold posted_handler, OnReplyReceived, deref, bind.
  rewrite Hc. reflexivity.
Qed.

(** The handler of a call invokes at most one callback, posts nothing and
    leaves the queue of the event loop alone. *)
Lemma posted_handler_at_most_one s call :
  let s' := final_state (posted_handler call s) in
  (length (callbacks_invoked (trace s'))
   <= length (callbacks_invoked (trace s)) + 1)%nat /\
  posted (trace s') = posted (trace s) /\
  handlers_ (main_service_ s') = handlers_ (main_service_ s).
Proof.
  destruct (heap s !! call) as [c|] eqn:Hc.
  - destruct (posted_handler_spec s call c Hc)
      as (s1 & Hrun & Htr & _ & _ & Hms).
    simpl. rewrite Hrun. simpl. rewrite Htr, Hms.
    rewrite !callbacks_invoked_app, !posted_app, !length_app.
    destruct (callback_ c); simpl; rewrite ?app_nil_r; repeat split; lia.
  - simpl. rewrite (posted_handler_dangling s call Hc). repeat split; lia.
Qed.

Lemma run_one_delivery_ok s :
  delivery_ok s -> delivery_ok (final_state (run_one s)).
Proof.
  intros Hs. unfold run_one. unfold bind at 1, get. simpl.
  destruct (stopped_ (main_service_ s)); [exact Hs|].
  destruct (handlers_ (main_service_ s)) as [|[call h] rest] eqn:Hq;
    [exact Hs|].
  unfold bind at 1, modify at 1.
  set (sp := set_main_service_ {| stopped_ := false; handlers_ := rest |} s).
  pose proof (posted_handler_at_most_one sp call) as (Hcb & Hposted & Hqueue).
  unfold delivery_ok in *.
  rewrite (keeps_after (fun s => callbacks_invoked (trace s)))
    by (intros ?; unfold callbacks_invoked; keeps_all).
  rewrite (keeps_after (fun s => handlers_ (main_service_ s)))
    by (intros ?; keeps_all).
  rewrite (keeps_after (fun s => posted (trace s)))
    by (intros ?; unfold posted; keeps_all).
  rewrite Hposted, Hqueue. subst sp. simpl in *. rewrite Hq in Hs.
  simpl in Hs. lia.
Qed.

Lemma step_delivery_ok (a : Step) s :
  delivery_ok s -> delivery_ok (final_state (step a s)).
Proof.
  intros Hs.
  destruct a as [request callback call_name timeout returned now
                |cluster_id|tag st r|index now next|]; simpl.
  - unfold delivery_ok.
    rewrite (CreateCall_keeps_callbacks request callback call_name timeout
               returned now s).
    rewrite (CreateCall_keeps_main_service request callback call_name timeout
               returned now s).
    assert (Hp : keeps (fun s => posted (trace s))
                   (CreateCall request callback call_name timeout returned
                      now))
      by (unfold posted; keeps_all).
    rewrite (Hp s). exact Hs.
  - rewrite SetClusterId_spec. destruct (_ || _); exact Hs.
  - assert (Hc : keeps (fun s => callbacks_invoked (trace s))
                   (transport_complete tag st r))
      by (unfold callbacks_invoked; keeps_all).
    assert (Hp : keeps (fun s => posted (trace s))
                   (transport_complete tag st r))
      by (unfold posted; keeps_all).
    assert (Hh : keeps main_service_ (transport_complete tag st r))
      by keeps_all.
    unfold delivery_ok. rewrite (Hc s), (Hp s), (Hh s). exact Hs.
  - rewrite then_ret_tt. apply delivery_ok_taken.
    rewrite (poll_iteration_keeps_callbacks index now next s).
    rewrite (poll_iteration_keeps_taken index now next s).
    apply delivery_ok_taken, Hs.
  - rewrite then_ret_tt. apply run_one_delivery_ok, Hs.
Qed.

Lemma steps_delivery_ok (l : list Step) s :
  delivery_ok s -> delivery_ok (final_state (steps l s)).
Proof.
  revert s. induction l as [|a l IH]; intros s Hs; [exact Hs|].
  unfold steps. simpl. unfold bind.
  pose proof (step_delivery_ok a s Hs) as Hstep.
  destruct (step a s) as [[] s1|d s1]; simpl in *; [|exact Hstep].
  apply IH, Hstep.
Qed.

(** X11: take a manager built on an event loop with nothing queued, and
    any interleaving of calls of the interface, completions, turns of
    polling threads and handlers run by the event loop, however it ends.
    Then no more callbacks have been invoked than handlers have left the
    queue of the event loop: the callbacks invoked and the handlers still
    queued are together at most the handlers that were posted. *)
Theorem callbacks_at_most_posted
    main_service cluster_id P call_timeout_ms r (l : list Step) :
  (0 < P <= INT_MAX)%Z -> (0 <= r)%Z ->
  handlers_ main_service = [] ->
  exists s0,
    ClientCallManager_new main_service cluster_id P call_timeout_ms r
      = Built s0 /\
    let s := final_state (steps l s0) in
    (length (callbacks_invoked (trace s))
     + length (handlers_ (main_service_ s))
     <= length (posted (trace s)))%nat.
Proof.
  intros HP Hr Hidle.
  destruct (ClientCallManager_new_ok main_service cluster_id P call_timeout_ms
              r HP Hr)
    as (s0 & Hnew & _ & _ & _ & _ & Hms & _ & _ & _ & _ & Htr).
  exists s0. split; [exact Hnew|].
  apply (steps_delivery_ok l s0). unfold delivery_ok.
  rewrite Htr, Hms, Hidle. simpl. lia.
Qed.

End DeliveredOnce.

(** ** The owners of a stats handle *)

Section Owners.
Context `{Ext : Externals}.

Lemma incr_lookup h (uc : gmap nat nat) :
  incr h uc !! h = Some (S (default 0 (uc !! h))).
Proof. apply lookup_insert_eq. Qed.

Lemma decr_lookup h (uc : gmap nat nat) :
  decr h uc !! h = Some (pred (default 0 (uc !! h))).
Proof. apply lookup_insert_eq. Qed.

Lemma incr_lookup_ne h h' (uc : gmap nat nat) :
  h' <> h -> incr h uc !! h' = uc !! h'.
Proof. intros Hne. apply lookup_insert_ne. congruence. Qed.

Lemma decr_lookup_ne h h' (uc : gmap nat nat) :
  h' <> h -> decr h uc !! h' = uc !! h'.
Proof. intros Hne. apply lookup_insert_ne. congruence. Qed.

(** X12: a call that is created and then dropped by a polling thread (its
    completion is not [ok], or the event loop is stopped, or [shutdown_]
    is set) is deleted without a callback and leaves no owner of its
    stats handle behind: the use count of the handle is what it was
    before [CreateCall], and no other handle is touched. *)
Theorem dropped_call_releases_handle
    s request callback call_name method_timeout_ms (h : StatsHandle) now
    index now' (ok0 : bool) :
  manager_ok s -> cq_index_ok s index ->
  ok0 && negb (stopped_ (main_service_ s)) && negb (shutdown_ s) = false ->
  let tag := next_ptr s in
  let next := {| next_status := GOT_EVENT; got_tag := tag; ok := ok0 |} in
  exists s1 s2,
    CreateCall request callback call_name method_timeout_ms (Some h) now s
      = Returned tt s1 /\
    use_count s1 !! h = Some (S (default 0 (use_count s !! h))) /\
    poll_iteration index now' next s1 = Returned Continue s2 /\
    heap s2 = delete tag (heap s) /\
    use_count s2 !! h = Some (default 0 (use_count s !! h)) /\
    (forall h', h' <> h -> use_count s2 !! h' = use_count s !! h') /\
    callbacks_invoked (trace s2) = callbacks_invoked (trace s) /\
    main_service_ s2 = main_service_ s.
Proof.
  intros Hok Hidx Hdrop tag next.
  destruct (CreateCall_spec s request callback call_name method_timeout_ms
              (Some h) now Hok)
    as (s1 & Hrun & Htr1 & Hheap1 & _ & _ & _ & Hcqs1 & Hms1 & Hshut1 & _ & _
        & Huc1).
  simpl in Hheap1, Htr1. fold tag in Hheap1, Htr1.
  assert (Hidx1 : cq_index_ok s1 index)
    by (unfold cq_index_ok in *; rewrite Hcqs1; exact Hidx).
  match type of Hheap1 with
  | heap s1 = <[tag := ?c]> _ =>
      assert (Hc1 : heap s1 !! got_tag next = Some c)
        by (rewrite Hheap1; apply lookup_insert_eq);
      destruct (poll_iteration_event s1 index now' next c h Hidx1 eq_refl Hc1
                  eq_refl) as (s2 & Hpoll & Hcase)
  end.
  simpl in Hcase. rewrite Hms1, Hshut1, Hdrop in Hcase.
  destruct Hcase as (Htr2 & Hheap2 & Hms2 & Huc2).
  exists s1, s2. split; [exact Hrun|].
  split; [rewrite Huc1; apply incr_lookup|].
  split; [exact Hpoll|].
  split; [rewrite Hheap2, Hheap1; apply delete_insert_eq|].
  split.
  { rewrite Huc2, Huc1, !decr_lookup, !incr_lookup. reflexivity. }
  split.
  { intros h' Hne. rewrite Huc2, Huc1.
    rewrite !decr_lookup_ne, !incr_lookup_ne by exact Hne. reflexivity. }
  split; [|exact Hms2].
  rewrite Htr2, Htr1, !callbacks_invoked_app. simpl.
  rewrite !app_nil_r. reflexivity.
Qed.

End Owners.

(** ** No fault while the environment keeps its side *)

Section Safety.
Context `{Ext : Externals}.

Lemma queue_ok_insert s s' tag c :
  is_Some (heap s !! tag) \/ tag ∉ queued s ->
  heap s' = <[tag := c]> (heap s) -> main_service_ s' = main_service_ s ->
  queue_ok s -> queue_ok s'.
Proof.
  intros _ Hheap Hms [Hlive Hnodup]. unfold queue_ok, queued in *.
  rewrite Hms. split; [|exact Hnodup].
  intros t Ht. rewrite Hheap.
  destruct (decide (tag = t)) as [->|Hne].
  - rewrite lookup_insert_eq. eauto.
  - rewrite lookup_insert_ne by exact Hne. apply Hlive, Ht.
Qed.

Lemma queue_ok_delete s s' tag :
  tag ∉ queued s' ->
  heap s' = delete tag (heap s) ->
  (forall t, t ∈ queued s' -> t ∈ queued s) -> NoDup (queued s') ->
  queue_ok s -> queue_ok s'.
Proof.
  intros Hnot Hheap Hsub Hnodup [Hlive _]. split; [|exact Hnodup].
  intros t Ht. rewrite Hheap. rewrite lookup_delete_ne.
  - apply Hlive, Hsub, Ht.
  - intros ->. contradiction.
Qed.

Lemma run_one_nothing_to_run s :
  stopped_ (main_service_ s) = true \/ handlers_ (main_service_ s) = [] ->
  run_one s = Returned false s.
Proof.
  intros H. unfold run_one, bind, get, ret.
  destruct (stopped_ (main_service_ s)); [reflexivity|].
  destruct H as [? | ->]; [discriminate|reflexivity].
Qed.

(** An allowed step returns, from a safe state to a safe state. *)
Lemma step_safe (a : Step) s :
  safe s -> step_allowed s a ->
  exists s', step a s = Returned tt s' /\ safe s'.
Proof.
  intros (Hok & Hh & Hnil & Hq) Hallow.
  assert (Hrest : forall s',
            step a s = Returned tt s' -> queue_ok s' -> safe s').
  { intros s' Hrun Hq'.
    destruct (step_manager_ok a s s' Hok Hrun) as [Hok' _].
    split; [exact Hok'|]. split.
    - apply (step_handles_ok a s s' Hok Hh); [|exact Hrun].
      destruct a as [? ? ? ? [h|] ?| | | |]; try reflexivity.
      simpl in Hallow. contradiction.
    - split; [|exact Hq'].
      pose proof (step_cluster_id_nil a s Hnil) as Hnil'.
      rewrite Hrun in Hnil'. exact Hnil'. }
  destruct a as [request callback call_name timeout returned now
                |cluster_id|tag st r|index now next|]; simpl in Hallow.
  - destruct (CreateCall_spec s request callback call_name timeout returned
                now Hok)
      as (s' & Hrun & _ & Hheap & _ & _ & _ & _ & Hms & _).
    exists s'. split; [exact Hrun|]. apply Hrest; [exact Hrun|].
    eapply queue_ok_insert; [|exact Hheap|exact Hms|exact Hq].
    destruct (decide (next_ptr s ∈ queued s)) as [Hin|Hout]; [|auto].
    left. apply Hq, Hin.
  - exists (set_cluster_id_ ClusterID_Nil s).
    assert (Hrun : step (StepSetClusterId cluster_id) s
                   = Returned tt (set_cluster_id_ ClusterID_Nil s))
      by (apply SetClusterId_from_nil, Hnil).
    split; [exact Hrun|]. apply Hrest; [exact Hrun|]. exact Hq.
  - destruct Hallow as [c Hc].
    assert (Hrun : step (StepTransportComplete tag st r) s
                   = Returned tt
                       (set_heap (<[tag := set_completion st r c]> (heap s))
                          s)).
    { simpl. unfold transport_complete, deref, store, bind, modify.
      rewrite Hc. reflexivity. }
    eexists. split; [exact Hrun|]. apply Hrest; [exact Hrun|].
    eapply queue_ok_insert; [left; eauto|reflexivity|reflexivity|exact Hq].
  - destruct Hallow as [Hidx Hev].
    destruct (decide (next_status next = GOT_EVENT)) as [Hst|Hst].
    + destruct (Hev Hst) as [[c Hc] Hnew].
      destruct (stats_handle_ c) as [h|] eqn:Hhandle;
        [|exfalso; exact (Hh _ _ Hc Hhandle)].
      destruct (poll_iteration_event s index now next c h Hidx Hst Hc Hhandle)
        as (s' & Hpoll & Hcase).
      exists s'. simpl. unfold bind at 1. rewrite Hpoll.
      split; [reflexivity|].
      apply Hrest; [simpl; unfold bind at 1; rewrite Hpoll; reflexivity|].
      destruct (ok next && negb (stopped_ (main_service_ s)) &&
                negb (shutdown_ s)).
      * destruct Hcase as (_ & Hheap & Hms & _).
        destruct Hq as [Hlive Hnodup]. unfold queue_ok, queued in *.
        rewrite Hms, Hheap. simpl. rewrite fmap_app. simpl. split.
        -- intros t Ht. apply elem_of_app in Ht as [Ht|Ht].
           ++ destruct (decide (got_tag next = t)) as [->|Hne].
              ** rewrite lookup_insert_eq. eauto.
              ** rewrite lookup_insert_ne by exact Hne. apply Hlive, Ht.
           ++ apply list_elem_of_singleton in Ht as ->.
              rewrite lookup_insert_eq. eauto.
        -- apply NoDup_app. split; [exact Hnodup|]. split.
           ++ intros t Ht Ht'. apply list_elem_of_singleton in Ht' as ->.
              contradiction.
           ++ apply NoDup_singleton.
      * destruct Hcase as (_ & Hheap & Hms & _).
        assert (Hsame : queued s' = queued s)
          by (unfold queued; rewrite Hms; reflexivity).
        eapply queue_ok_delete; [|exact Hheap| | |exact Hq];
          rewrite Hsame; [exact Hnew|auto|apply Hq].
    + eexists. simpl. unfold bind at 1.
      rewrite (poll_iteration_no_event s index now next Hidx Hst).
      split; [reflexivity|].
      apply Hrest.
      * simpl. unfold bind at 1.
        rewrite (poll_iteration_no_event s index now next Hidx Hst).
        reflexivity.
      * exact Hq.
  - destruct (stopped_ (main_service_ s)) eqn:Hstop.
    { exists s. simpl. unfold bind at 1.
      rewrite (run_one_nothing_to_run s) by auto.
      split; [reflexivity|]. exact (conj Hok (conj Hh (conj Hnil Hq))). }
    destruct (handlers_ (main_service_ s)) as [|[tag h] rest] eqn:Hqueue.
    { exists s. simpl. unfold bind at 1.
      rewrite (run_one_nothing_to_run s) by auto.
      split; [reflexivity|]. exact (conj Hok (conj Hh (conj Hnil Hq))). }
    destruct Hq as [Hlive Hnodup]. unfold queued in Hlive, Hnodup.
    rewrite Hqueue in Hlive, Hnodup. simpl in Hlive, Hnodup.
    destruct (Hlive tag) as [c Hc]; [left|].
    destruct (run_one_spec s tag h rest c Hstop Hqueue Hc)
      as (s1 & s' & Hs1 & Hone & _ & Hheap & Hms & _).
    destruct (posted_handler_spec
                (set_main_service_ {| stopped_ := false; handlers_ := rest |} s)
                tag c Hc) as (s1' & Hs1' & _ & Hheap1 & _).
    rewrite Hs1 in Hs1'. injection Hs1' as <-. simpl in Hheap1.
    assert (Hrun : step StepRunOne s = Returned tt s')
      by (simpl; unfold bind at 1; rewrite Hone; reflexivity).
    exists s'. split; [exact Hrun|]. apply Hrest; [exact Hrun|].
    apply NoDup_cons in Hnodup as [Hnot Hnodup'].
    unfold queue_ok, queued. rewrite Hms, Hheap, Hheap1. simpl.
    split; [|exact Hnodup'].
    intros t Ht. rewrite lookup_delete_ne.
    + apply Hlive. right. exact Ht.
    + intros ->. contradiction.
Qed.

Lemma steps_safe (l : list Step) :
  forall s, safe s -> allowed l s ->
  exists s', steps l s = Returned tt s' /\ safe s'.
Proof.
  induction l as [|a l IH]; intros s Hs Hall.
  - exists s. split; [reflexivity|exact Hs].
  - destruct Hall as [Ha Hl].
    destruct (step_safe a s Hs Ha) as (s1 & Hrun & Hs1).
    rewrite Hrun in Hl.
    destruct (IH s1 Hs1 Hl) as (s' & Hrun' & Hs').
    exists s'. split; [|exact Hs'].
    unfold steps in *. simpl. unfold bind at 1. rewrite Hrun. exact Hrun'.
Qed.

(** X13: take a manager built on an event loop with nothing queued, and
    any interleaving in which the environment keeps its side:
    [RecordStart] returns a handle, polling threads poll queues that
    exist, and the transport completes and hands out only calls that are
    pending (allocated and not yet posted).  Then no step aborts: no
    [RAY_CHECK] fails, the fatal path of [SetClusterId] is not taken and no
    call is used after it was deleted.  Afterwards every handler on the
    event loop is for a call that is still allocated, and no call is
    queued twice. *)
Theorem no_fault_under_transport_contract
    main_service cluster_id P call_timeout_ms r (l : list Step) s0 :
  (0 < P <= INT_MAX)%Z -> (0 <= r)%Z ->
  handlers_ main_service = [] ->
  ClientCallManager_new main_service cluster_id P call_timeout_ms r
    = Built s0 ->
  allowed l s0 ->
  exists s,
    steps l s0 = Returned tt s /\
    (forall tag, tag ∈ queued s -> is_Some (heap s !! tag)) /\
    NoDup (queued s) /\
    handles_ok s.
Proof.
  intros HP Hr Hidle Hnew Hall.
  destruct (ClientCallManager_new_ok main_service cluster_id P call_timeout_ms
              r HP Hr)
    as (s0' & Hnew' & Hok & Hnil & _ & _ & Hms & _ & _ & _ & Hheap & _).
  rewrite Hnew in Hnew'. injection Hnew' as <-.
  assert (Hsafe : safe s0).
  { split; [exact Hok|]. split.
    - intros tag c. rewrite Hheap, lookup_empty. discriminate.
    - split; [exact Hnil|]. unfold queue_ok, queued.
      rewrite Hms, Hidle. simpl. split; [|apply NoDup_nil_2].
      intros tag Ht. apply elem_of_nil in Ht. contradiction. }
  destruct (steps_safe l s0 Hsafe Hall) as (s & Hrun & _ & Hh & _ & Hq1 & Hq2).
  exists s. auto.
Qed.

End Safety.

(** ** A polling thread without events *)

Section Idle.
Context `{Ext : Externals}.

(** X14: while [shutdown_] is not set, timeouts alone never make a
    polling thread leave its loop: after any number of them it is still
    polling, and all it has done is to wait that many times, each time for
    at most 250 ms. *)
Theorem poller_keeps_polling index (inputs : list (Z * AsyncNextResult)) s :
  cq_index_ok s index -> shutdown_ s = false ->
  Forall (fun i => next_status (snd i) = TIMEOUT) inputs ->
  poll_loop index inputs s =
    Returned Polling
      (set_trace
         (trace s ++ map (fun i => EvAsyncNext index (fst i + 250)) inputs)
         s).
Proof.
  revert s. induction inputs as [|[now next] rest IH]; intros s Hidx Hs Hall.
  - simpl. rewrite app_nil_r. destruct s; reflexivity.
  - apply Forall_cons in Hall as [Hnext Hrest]. simpl in Hnext.
    simpl. unfold bind at 1.
    rewrite (poll_iteration_no_event s index now next Hidx)
      by (rewrite Hnext; discriminate).
    rewrite Hnext, Hs. simpl.
    rewrite (IH (set_trace (trace s ++ [EvAsyncNext index (now + 250)]) s));
      [|exact Hidx|exact Hs|exact Hrest].
    simpl. rewrite <- app_assoc. reflexivity.
Qed.

End Idle.

(** * The further properties on the example states *)

Section FurtherExamples.
#[local] Existing Instance example_externals.

(** X1, at two threads and [rand() = 7]. *)
Lemma ClientCallManager_new_structure_witness :
  (0 < 2 <= INT_MAX)%Z /\ (0 <= 7)%Z /\
  exists s,
    ClientCallManager_new idle_loop "cluster-A" 2 (-1) 7 = Built s /\
    cqs_ s = [{| cq_shutdown := false |}; {| cq_shutdown := false |}] /\
    polling_threads_ s = [0; 1]%Z /\
    (0 <= rr_index_ s < 2)%Z.
Proof.
  assert (HP : (0 < 2 <= INT_MAX)%Z) by (rewrite INT_MAX_eq; lia).
  assert (Hr : (0 <= 7)%Z) by lia.
  split; [exact HP|]. split; [exact Hr|].
  destruct (ClientCallManager_new_structure (Ext := example_externals)
              idle_loop "cluster-A" 2 (-1) 7 HP Hr)
    as (s & Hnew & Hcqs & Hthreads & Hrr & _).
  exists s. split; [exact Hnew|]. split; [exact Hcqs|].
  split; [exact Hthreads|exact Hrr].
Defined.

(** X3, at a timeout on queue 0 of the example manager, whose two
    polling threads are in their loops. *)
Lemma poller_exits_after_destructor_witness :
  cq_index_ok example_manager 0 /\
  0%Z ∈ polling_threads_ example_manager /\
  thread_finished example_manager 0 = false /\
  next_status TIMED_OUT <> GOT_EVENT /\
  exists t s1 s2,
    ClientCallManager_delete example_manager = Returned (Joining t) s1 /\
    poll_to_return 0 [(5000, TIMED_OUT); (5250, TIMED_OUT)]%Z s1
      = Returned Exited s2 /\
    last (trace s2) = Some (EvThreadExit 0) /\
    thread_finished s2 0 = true.
Proof.
  assert (Hidx : cq_index_ok example_manager 0)
    by (split; [lia|vm_compute; lia]).
  assert (Hin : 0%Z ∈ polling_threads_ example_manager)
    by (apply list_elem_of_In; simpl; auto).
  assert (Hrunning : thread_finished example_manager 0 = false)
    by (vm_compute; reflexivity).
  assert (Hst : next_status TIMED_OUT <> GOT_EVENT) by discriminate.
  split; [exact Hidx|]. split; [exact Hin|]. split; [exact Hrunning|].
  split; [exact Hst|].
  destruct (poller_exits_after_destructor (Ext := example_externals)
              example_manager 0 5000 TIMED_OUT [(5250, TIMED_OUT)]%Z
              Hidx Hin Hrunning Hst)
    as (t & joined & later & s1 & s2 & Hdel & _ & _ & Hloop & Htr & Hfin & _).
  exists t, s1, s2. split; [exact Hdel|]. split; [exact Hloop|].
  split; [rewrite Htr, last_app; reflexivity|exact Hfin].
Defined.

(** X4, at the completed call of the example, although it is [ok]. *)
Lemma completion_dropped_after_destructor_witness :
  cq_index_ok example_completed 1 /\
  1%Z ∈ polling_threads_ example_completed /\
  thread_finished example_completed 1 = false /\
  heap example_completed !! 1 = Some example_call /\
  stats_handle_ example_call = Some 10 /\
  exists t s1 s2,
    ClientCallManager_delete example_completed = Returned (Joining t) s1 /\
    poll_iteration 1 2000 (GOT 1 true) s1 = Returned Continue s2 /\
    trace s2 =
      trace s1
      ++ [EvAsyncNext 1 2250; EvMutexLock 1;
          EvWriteReturnStatus 1 (StatusRpcError 4);
          EvMutexUnlock 1; EvDelete 1] /\
    heap s2 !! 1 = None /\
    handlers_ (main_service_ s2) = [] /\
    callbacks_invoked (trace s2) = [].
Proof.
  assert (Hidx : cq_index_ok example_completed 1)
    by (split; [lia|vm_compute; lia]).
  assert (Hin : 1%Z ∈ polling_threads_ example_completed)
    by (apply list_elem_of_In; vm_compute; auto).
  assert (Hrunning : thread_finished example_completed 1 = false)
    by (vm_compute; reflexivity).
  assert (Hc : heap example_completed !! 1 = Some example_call)
    by (vm_compute; reflexivity).
  assert (Hh : stats_handle_ example_call = Some 10)
    by (vm_compute; reflexivity).
  split; [exact Hidx|]. split; [exact Hin|]. split; [exact Hrunning|].
  split; [exact Hc|]. split; [exact Hh|].
  destruct (completion_dropped_after_destructor (Ext := example_externals)
              example_completed 1 2000 1 true example_call 10
              Hidx Hin Hrunning Hc Hh)
    as (t & s1 & s2 & Hdel & Hpoll & Htr & Hheap & Hms & _ & Hcalls).
  exists t, s1, s2. split; [exact Hdel|]. split; [exact Hpoll|].
  split; [exact Htr|].
  split; [rewrite Hheap; apply lookup_delete_eq|].
  split; [rewrite Hms; vm_compute; reflexivity|].
  rewrite Hcalls. vm_compute. reflexivity.
Defined.

(** X5, at the completed call of the example, whose transport status is
    4. *)
Lemma GetStatus_after_SetReturnStatus_witness :
  heap example_completed !! 1 = Some example_call /\
  exists s1 s2,
    SetReturnStatus 1 example_completed = Returned tt s1 /\
    GetStatus 1 s1 = Returned (StatusRpcError 4) s2.
Proof.
  assert (Hc : heap example_completed !! 1 = Some example_call)
    by (vm_compute; reflexivity).
  split; [exact Hc|].
  destruct (GetStatus_after_SetReturnStatus (Ext := example_externals)
              example_completed 1 example_call Hc)
    as (s1 & s2 & Hset & Hget & _).
  exists s1, s2. split; [exact Hset|exact Hget].
Defined.

(** X6, at a call that the transport has completed with status 4. *)
Lemma GetStatus_before_SetReturnStatus_witness :
  manager_ok example_manager /\
  exists s1 s2 s3,
    CreateCall "request" (Some 5) "Echo" (-1) (Some 10) 1000 example_manager
      = Returned tt s1 /\
    transport_complete 1 4%Z 42%Z s1 = Returned tt s2 /\
    status_ <$> heap s2 !! 1 = Some 4%Z /\
    GetStatus 1 s2 = Returned StatusOK s3.
Proof.
  split; [exact example_manager_ok|].
  exact (GetStatus_before_SetReturnStatus (Ext := example_externals)
           example_manager "request" (Some 5) "Echo" (-1) (Some 10) 1000
           4%Z 42%Z example_manager_ok).
Defined.

(** X9, at the two queues of the example manager. *)
Lemma round_robin_turn_witness :
  manager_ok example_manager /\
  forallb is_CreateCall example_turn = true /\
  length example_turn = Z.to_nat (num_threads_ example_manager) /\
  (rr_index_ example_manager + num_threads_ example_manager
   <= UINT_MODULUS)%Z /\
  exists s' queues,
    steps example_turn example_manager = Returned tt s' /\
    sent_to (trace s') = queues /\
    queues ≡ₚ [0; 1].
Proof.
  assert (Hall : forallb is_CreateCall example_turn = true)
    by (vm_compute; reflexivity).
  assert (Hlen : length example_turn = Z.to_nat (num_threads_ example_manager))
    by (vm_compute; reflexivity).
  assert (Hwrap : (rr_index_ example_manager + num_threads_ example_manager
                   <= UINT_MODULUS)%Z)
    by (rewrite UINT_MODULUS_eq; simpl; lia).
  split; [exact example_manager_ok|]. split; [exact Hall|].
  split; [exact Hlen|]. split; [exact Hwrap|].
  destruct (round_robin_turn (Ext := example_externals) example_turn
              example_manager example_manager_ok Hall Hlen Hwrap)
    as (s' & queues & Hrun & Hsent & _ & Hperm).
  exists s', queues. split; [exact Hrun|]. split; [exact Hsent|exact Hperm].
Defined.

(** X10, at a manager whose cell holds "cluster-A". *)
Lemma CreateCall_attaches_stored_identity_witness :
  manager_ok example_manager_with_identity /\
  cluster_id_ example_manager_with_identity <> "" /\
  exists s' ctx,
    CreateCall "request" (Some 5) "Echo" (-1) (Some 10) 1000
      example_manager_with_identity = Returned tt s' /\
    sent_contexts (trace s') = [ctx] /\
    metadata ctx = [("ray_cluster_id", "cluster-A")].
Proof.
  assert (Hok : manager_ok example_manager_with_identity)
    by exact example_manager_ok.
  assert (Hid : cluster_id_ example_manager_with_identity <> "")
    by discriminate.
  split; [exact Hok|]. split; [exact Hid|].
  destruct (CreateCall_attaches_stored_identity (Ext := example_externals)
              example_manager_with_identity "request" (Some 5) "Echo" (-1)
              (Some 10) 1000 Hok Hid)
    as (s' & ctx & Hrun & Hsent & Hmeta & _).
  exists s', ctx. split; [exact Hrun|]. split; [exact Hsent|exact Hmeta].
Defined.

(** X11, at the life of one delivered call. *)
Lemma callbacks_at_most_posted_witness :
  (0 < 2 <= INT_MAX)%Z /\ (0 <= 7)%Z /\ handlers_ idle_loop = [] /\
  exists s0,
    ClientCallManager_new idle_loop "" 2 (-1) 7 = Built s0 /\
    (length (callbacks_invoked (trace (final_state (steps example_run s0))))
     + length (handlers_ (main_service_ (final_state (steps example_run s0))))
     <= length (posted (trace (final_state (steps example_run s0)))))%nat.
Proof.
  assert (HP : (0 < 2 <= INT_MAX)%Z) by (rewrite INT_MAX_eq; lia).
  assert (Hr : (0 <= 7)%Z) by lia.
  split; [exact HP|]. split; [exact Hr|]. split; [reflexivity|].
  exact (callbacks_at_most_posted (Ext := example_externals) idle_loop "" 2
           (-1) 7 example_run HP Hr eq_refl).
Defined.

(** X12, at a call on the example manager whose completion is not
    [ok]. *)
Lemma dropped_call_releases_handle_witness :
  manager_ok example_manager /\ cq_index_ok example_manager 1 /\
  false && negb (stopped_ (main_service_ example_manager))
    && negb (shutdown_ example_manager) = false /\
  exists s1 s2,
    CreateCall "request" (Some 5) "Echo" (-1) (Some 10) 1000 example_manager
      = Returned tt s1 /\
    use_count s1 !! 10 = Some 1 /\
    poll_iteration 1 2000 (GOT 1 false) s1 = Returned Continue s2 /\
    heap s2 = ∅ /\ use_count s2 !! 10 = Some 0.
Proof.
  assert (Hidx : cq_index_ok example_manager 1)
    by (split; [lia|vm_compute; lia]).
  assert (Hdrop : false && negb (stopped_ (main_service_ example_manager))
                    && negb (shutdown_ example_manager) = false)
    by reflexivity.
  split; [exact example_manager_ok|]. split; [exact Hidx|].
  split; [exact Hdrop|].
  destruct (dropped_call_releases_handle (Ext := example_externals)
              example_manager "request" (Some 5) "Echo" (-1) 10 1000 1 2000
              false example_manager_ok Hidx Hdrop)
    as (s1 & s2 & Hrun & Huc1 & Hpoll & Hheap & Huc2 & _).
  exists s1, s2. split; [exact Hrun|]. split; [exact Huc1|].
  split; [exact Hpoll|]. split; [exact Hheap|exact Huc2].
Defined.

(** X14, at two timeouts on queue 0 of the example manager. *)
Lemma poller_keeps_polling_witness :
  cq_index_ok example_manager 0 /\ shutdown_ example_manager = false /\
  Forall (fun i => next_status (snd i) = TIMEOUT)
    [(5000, TIMED_OUT); (5250, TIMED_OUT)]%Z /\
  poll_loop 0 [(5000, TIMED_OUT); (5250, TIMED_OUT)]%Z example_manager =
    Returned Polling
      (set_trace [EvAsyncNext 0 5250; EvAsyncNext 0 5500] example_manager).
Proof.
  assert (Hidx : cq_index_ok example_manager 0)
    by (split; [lia|vm_compute; lia]).
  assert (Hall : Forall (fun i => next_status (snd i) = TIMEOUT)
                   [(5000, TIMED_OUT); (5250, TIMED_OUT)]%Z)
    by (repeat constructor).
  split; [exact Hidx|]. split; [reflexivity|]. split; [exact Hall|].
  exact (poller_keeps_polling (Ext := example_externals) 0
           [(5000, TIMED_OUT); (5250, TIMED_OUT)]%Z example_manager Hidx
           eq_refl Hall).
Defined.

(** In the life of the delivered call of the example the environment
    keeps its side. *)
Example example_run_allowed : allowed example_run example_manager.
Proof.
  unfold example_run.
  repeat match goal with
  | |- allowed (_ :: _) _ => split
  | |- allowed [] _ => exact I
  | |- match step ?a ?s with _ => _ end =>
      let r := eval vm_compute in (step a s) in
      change (step a s) with r; cbv beta iota
  end; simpl.
  - discriminate.
  - eexists. vm_compute. reflexivity.
  - split; [split; [lia|vm_compute; lia]|]. intros _.
    split; [eexists; vm_compute; reflexivity|].
    unfold queued. simpl. apply not_elem_of_nil.
  - exact I.
Qed.

(** X13, at the life of one delivered call: every step returns, and at
    the end nothing is queued and no call is left. *)
Lemma no_fault_under_transport_contract_witness :
  (0 < 2 <= INT_MAX)%Z /\ (0 <= 7)%Z /\ handlers_ idle_loop = [] /\
  ClientCallManager_new idle_loop "cluster-A" 2 (-1) 7
    = Built example_manager /\
  allowed example_run example_manager /\
  exists s,
    steps example_run example_manager = Returned tt s /\
    NoDup (queued s) /\ handles_ok s.
Proof.
  assert (HP : (0 < 2 <= INT_MAX)%Z) by (rewrite INT_MAX_eq; lia).
  assert (Hr : (0 <= 7)%Z) by lia.
  split; [exact HP|]. split; [exact Hr|]. split; [reflexivity|].
  split; [exact example_manager_built|].
  split; [exact example_run_allowed|].
  destruct (no_fault_under_transport_contract (Ext := example_externals)
              idle_loop "cluster-A" 2 (-1) 7 example_run example_manager
              HP Hr eq_refl example_manager_built example_run_allowed)
    as (s & Hrun & _ & Hnodup & Hh).
  exists s. split; [exact Hrun|]. split; [exact Hnodup|exact Hh].
Defined.

End FurtherExamples.
